(** * Trading dashboard backend: price cache, indicators, decision engine,
      subscriber registry and client protocol

    A shallow embedding of the Python sources and the properties of their
    specification.

    Conventions of the embedding.
    - A Python [float] is an exact rational ([Q]): rounding error, overflow,
      infinities and NaN of binary64 are outside the model.  A division whose
      divisor is zero raises [ZeroDivisionError], as Python's does.
    - An exception is a value: a function that can raise returns [result A].
    - [random.uniform], [random.choice], [time.time()], [datetime.now()] and
      the upstream market-data calls are inputs of the call that uses them.
    - A module-level dict is a [gmap]; a Python list is a [list]. *)

From Stdlib Require Import QArith Qround Qabs Lqa.
From stdpp Require Import base option list gmap strings.

Set Warnings "-register-all".
Local Open Scope Z_scope.

(** ** Python values shared by all the modules *)

Module Py.

Inductive exn : Type :=
  | ZeroDivisionError
  | ValueError
  | IndexError
  | JSONDecodeError
  | KeyError (key : string)
  | AttributeError (type_name : string)
  | Exception (msg : string).

Inductive result (A : Type) : Type :=
  | Ok (a : A)
  | Raise (e : exn).
Arguments Ok {A} a.
Arguments Raise {A} e.

Definition bind {A B : Type} (r : result A) (k : A -> result B) : result B :=
  match r with
  | Ok a => k a
  | Raise e => Raise e
  end.

#[global] Instance result_bind : MBind result := fun A B k r => bind r k.
#[global] Instance result_ret : MRet result := fun A a => Ok a.

(** [str(e)]. *)
Definition str (e : exn) : string :=
  match e with
  | ZeroDivisionError => "division by zero"
  | ValueError => "list.remove(x): x not in list"
  | IndexError => "single positional indexer is out-of-bounds"
  | JSONDecodeError => "Expecting value: line 1 column 1 (char 0)"
  | KeyError key => "'" +:+ key +:+ "'"
  | AttributeError type_name =>
      "'" +:+ type_name +:+ "' object has no attribute 'get'"
  | Exception msg => msg
  end.

(** [a < b] on floats. *)
Definition Qltb (a b : Q) : bool := negb (Qle_bool b a).

(** [a / b]: raises when [b] is zero. *)
Definition div (a b : Q) : result Q :=
  if Qeq_bool b 0 then Raise ZeroDivisionError else Ok (a / b)%Q.

(** [random.choice(options)]: the element the generator's [draw] selects. *)
Definition choice (draw : nat) (options : list string) : string :=
  default "" (options !! (draw mod length options)%nat).

(** [separator.join(parts)]. *)
Definition join (separator : string) (parts : list string) : string :=
  String.concat separator parts.

(** [sum(l)]. *)
Definition sum (l : list Q) : Q := fold_left Qplus l 0%Q.

(** [l[start:]] with Python's treatment of a negative or too large start. *)
Definition slice_from {A : Type} (start : Z) (l : list A) : list A :=
  let len := Z.of_nat (length l) in
  let s := if start <? 0 then Z.max (len + start) 0 else Z.min start len in
  drop (Z.to_nat s) l.

(** Nearest integer, ties to the even one. *)
Definition round_half_even (y : Q) : Z :=
  let f := Qfloor y in
  let r := (y - inject_Z f)%Q in
  if Qltb r (1 # 2) then f
  else if Qltb (1 # 2) r then f + 1
  else if Z.even f then f else f + 1.

(** [round(x, ndigits)]. *)
Definition round (x : Q) (ndigits : nat) : Q :=
  let scale := inject_Z (10 ^ Z.of_nat ndigits) in
  (inject_Z (round_half_even (x * scale)) / scale)%Q.

(** [int(x)]: truncation towards zero. *)
Definition int (x : Q) : Z := Z.quot (Qnum x) (Z.pos (Qden x)).

(** [abs(x)]. *)
Definition abs (x : Q) : Q := Qabs x.

(** Truth value of an optional float: [None] and [0.0] are false. *)
Definition truthy (x : option Q) : bool :=
  match x with
  | Some q => negb (Qeq_bool q 0)
  | None => false
  end.

(** [min(a, b)] and [max(a, b)]: the first argument wins a tie. *)
Definition min (a b : Q) : Q := if Qltb b a then b else a.
Definition max (a b : Q) : Q := if Qltb a b then b else a.

End Py.

Import Py.

(** ** [ai_trading_backend.py]: the list-based RSI *)

Module AiTradingBackend.

(** The loop over [range(1, len(prices))], carrying [prices[i-1]]. *)
Fixpoint gains_losses (prev : Q) (rest : list Q) : list Q * list Q :=
  match rest with
  | [] => ([], [])
  | p :: rest' =>
      let change := (p - prev)%Q in
      let '(gains, losses) := gains_losses p rest' in
      if Qltb 0 change
      then (change :: gains, 0%Q :: losses)
      else (0%Q :: gains, Qabs change :: losses)
  end.

Definition price_changes (prices : list Q) : list Q * list Q :=
  match prices with
  | [] => ([], [])
  | p0 :: rest => gains_losses p0 rest
  end.

(** [sum(losses[-period:])], the numerator of the trailing average loss. *)
Definition trailing_gain (prices : list Q) (period : Z) : Q :=
  Py.sum (slice_from (- period) (fst (price_changes prices))).
Definition trailing_loss (prices : list Q) (period : Z) : Q :=
  Py.sum (slice_from (- period) (snd (price_changes prices))).


Definition calculate_rsi (prices : list Q) (period : Z) : result Q :=
  if Z.of_nat (length prices) <? period then Ok 50%Q
  else
    avg_gain ← Py.div (trailing_gain prices period) (inject_Z period);
    avg_loss ← Py.div (trailing_loss prices period) (inject_Z period);
    if Qeq_bool avg_loss 0 then Ok 100%Q
    else
      rs ← Py.div avg_gain avg_loss;
      q ← Py.div 100 (1 + rs);
      Ok (100 - q)%Q.

(** The default [period=14]. *)
Definition calculate_rsi_default (prices : list Q) : result Q :=
  calculate_rsi prices 14.

End AiTradingBackend.

(** ** [backend/app/core/websocket.py]: the subscriber registry

    [realtime_ai_backend.py] and [complete_ai_backend.py] carry the same
    [ConnectionManager] ([disconnected] is called [dead_connections] there). *)

Module ConnectionManager.

(** What [await connection.send_text(message)] did: it returned after
    [elapsed_ms] milliseconds, or it raised. *)
Inductive send_outcome : Type :=
  | Sent (elapsed_ms : nat)
  | SendRaised.

Section Manager.

(** A [WebSocket] object; [==] on it is object identity. *)
Context {WebSocket : Type} `{EqDecision WebSocket}.

(** [l.remove(x)]: drops the first occurrence, [ValueError] when there is
    none. *)
Fixpoint list_remove (x : WebSocket) (l : list WebSocket)
  : result (list WebSocket) :=
  match l with
  | [] => Raise ValueError
  | y :: l' =>
      if decide (x = y) then Ok l'
      else l'' ← list_remove x l'; Ok (y :: l'')
  end.

(** [connect]: [accept] is the outcome of [await websocket.accept()]. *)
Definition connect (accept : result ()) (websocket : WebSocket)
    (active_connections : list WebSocket) : result (list WebSocket) :=
  _ ← accept; Ok (active_connections ++ [websocket]).

Definition disconnect (websocket : WebSocket)
    (active_connections : list WebSocket) : result (list WebSocket) :=
  if decide (websocket ∈ active_connections)
  then list_remove websocket active_connections
  else Ok active_connections.


(** The network: what a write of [message] to a connection does. *)
Variable send_text : WebSocket -> string -> send_outcome.

(** First loop of [broadcast]: one write per connection, in order.  Returns
    the writes attempted with their outcomes, and the list [disconnected]. *)
Fixpoint send_to_each (message : string) (connections : list WebSocket)
  : list (WebSocket * send_outcome) * list WebSocket :=
  match connections with
  | [] => ([], [])
  | connection :: rest =>
      let '(attempts, disconnected) := send_to_each message rest in
      match send_text connection message with
      | Sent ms => ((connection, Sent ms) :: attempts, disconnected)
      | SendRaised =>
          ((connection, SendRaised) :: attempts, connection :: disconnected)
      end
  end.

(** Second loop of [broadcast]: [self.disconnect] on each failed one. *)
Fixpoint disconnect_each (disconnected : list WebSocket)
    (active_connections : list WebSocket) : result (list WebSocket) :=
  match disconnected with
  | [] => Ok active_connections
  | connection :: rest =>
      active' ← disconnect connection active_connections;
      disconnect_each rest active'
  end.

(** [broadcast]: the registry afterwards and the writes attempted. *)
Definition broadcast (message : string) (active_connections : list WebSocket)
  : result (list WebSocket * list (WebSocket * send_outcome)) :=
  let '(attempts, disconnected) := send_to_each message active_connections in
  active' ← disconnect_each disconnected active_connections;
  Ok (active', attempts).

(** The connections a broadcast wrote the message to. *)
Definition received (attempts : list (WebSocket * send_outcome))
  : list WebSocket :=
  omap (fun a => match a.2 with Sent _ => Some a.1 | SendRaised => None end)
       attempts.


End Manager.

(** The write did not raise. *)
Definition delivered (o : send_outcome) : bool :=
  match o with
  | Sent _ => true
  | SendRaised => false
  end.




(** A network on which the writes to connection 2 raise. *)
Definition broken_second (connection : nat) (message : string) : send_outcome :=
  if decide (connection = 2%nat) then SendRaised else Sent 3.

End ConnectionManager.

(** ** [backend/app/api/endpoints/websocket.py]: the client protocol *)

Module WebSocketEndpoint.

(** What [json.loads] returns. *)
Inductive json : Type :=
  | JNone
  | JBool (b : bool)
  | JInt (z : Z)
  | JFloat (q : Q)
  | JStr (s : string)
  | JList (items : list json)
  | JDict (fields : list (string * json)).

(** [type(v).__name__]. *)
Definition type_name (v : json) : string :=
  match v with
  | JNone => "NoneType"
  | JBool _ => "bool"
  | JInt _ => "int"
  | JFloat _ => "float"
  | JStr _ => "str"
  | JList _ => "list"
  | JDict _ => "dict"
  end.

(** Lookup in the fields of an object in the order of the text: a key that
    occurs twice has the value of its last occurrence. *)
Fixpoint lookup_last (key : string) (fields : list (string * json))
  : option json :=
  match fields with
  | [] => None
  | (k, v) :: rest =>
      match lookup_last key rest with
      | Some v' => Some v'
      | None => if decide (k = key) then Some v else None
      end
  end.

(** [message.get(key)]: only a dict has [get]. *)
Definition get (message : json) (key : string) : result (option json) :=
  match message with
  | JDict fields => Ok (lookup_last key fields)
  | other => Raise (AttributeError (type_name other))
  end.

(** [v == s] for a string literal [s]. *)
Definition eq_str (v : option json) (s : string) : bool :=
  match v with
  | Some (JStr s') => bool_decide (s' = s)
  | _ => false
  end.

(** The text frames the endpoint writes with [send_personal_message]. *)
Inductive frame : Type :=
  | SubscriptionConfirmed (symbols : json)
  | Pong
  | ErrorFrame (message : string).

(** The [try] block of the loop body, on a decoded message. *)
Definition dispatch (message : json) : result (list frame) :=
  ty ← get message "type";
  if eq_str ty "subscribe" then
    symbols ← get message "symbols";
    Ok [SubscriptionConfirmed (default (JList []) symbols)]
  else
    ty' ← get message "type";
    if eq_str ty' "ping" then Ok [Pong] else Ok [].

(** The double quote character. *)
Definition dquote : string :=
  String (Ascii.Ascii false true false false false true false false) "".

(** The text of an object with the single key [type]. *)
Definition typed_text (ty : string) : string :=
  "{" +:+ dquote +:+ "type" +:+ dquote +:+ ": " +:+
    dquote +:+ ty +:+ dquote +:+ "}".

(** What [json.loads] returns on the texts of the examples. *)
Definition loads_examples (data : string) : result json :=
  if decide (data = typed_text "unsubscribe")
  then Ok (JDict [("type", JStr "unsubscribe")])
  else if decide (data = typed_text "ping")
  then Ok (JDict [("type", JStr "ping")])
  else if decide (data = "[1, 2]") then Ok (JList [JInt 1; JInt 2])
  else if decide (data = "{}") then Ok (JDict [])
  else Raise JSONDecodeError.

Section Endpoint.

(** [json.loads]. *)
Variable json_loads : string -> result json.

(** One turn of the loop on the text [data]: the frames written. *)
Definition handle_text (data : string) : list frame :=
  match message ← json_loads data; dispatch message with
  | Ok frames => frames
  | Raise JSONDecodeError => [ErrorFrame "Invalid JSON"]
  | Raise e => [ErrorFrame (Py.str e)]
  end.

(** What [await websocket.receive_text()] yields: a text, or
    [WebSocketDisconnect] when the client went away. *)
Inductive received : Type :=
  | Text (data : string)
  | WebSocketDisconnect.

Context {WebSocket : Type} `{EqDecision WebSocket}.

Record session : Type := {
  open : bool;                      (* the endpoint is still in its loop *)
  active_connections : list WebSocket;
  outbox : list frame               (* frames written to this client *)
}.

(** One iteration of [while True]. *)
Definition step (websocket : WebSocket) (r : received) (s : session)
  : session :=
  if open s then
    match r with
    | Text data =>
        {| open := true;
           active_connections := active_connections s;
           outbox := outbox s ++ handle_text data |}
    | WebSocketDisconnect =>
        {| open := false;
           active_connections :=
             match ConnectionManager.disconnect websocket
                     (active_connections s) with
             | Ok l => l
             | Raise _ => active_connections s
             end;
           outbox := outbox s |}
    end
  else s.

Definition serve (websocket : WebSocket) (inbound : list received)
    (s : session) : session :=
  fold_left (fun s r => step websocket r s) inbound s.

End Endpoint.

End WebSocketEndpoint.

(** ** Market data as the upstream returns it *)

Module Upstream.

(** One row of the frame [ticker.history(...)] returns. *)
Record bar : Type := { Close : Q; Volume : Z }.

(** The frame: its rows, oldest first, and whether it has a [Volume]
    column. *)
Record frame : Type := { rows : list bar; has_volume : bool }.

(** [series.iloc[-k]] for [k >= 1]. *)
Definition iloc_neg {A : Type} (k : nat) (l : list A) : result A :=
  match rev l !! (k - 1)%nat with
  | Some a => Ok a
  | None => Raise IndexError
  end.

Definition closes (hist : frame) : list Q := Close <$> rows hist.
Definition volumes (hist : frame) : list Z := Volume <$> rows hist.

End Upstream.

(** ** [realtime_ai_backend.py]: price cache and indicators *)

Module RealtimeBackend.
Import Upstream.

Module MarketPrice.
Record t : Type := {
  symbol : string;
  price : Q;
  change : Q;
  change_percent : Q;
  volume : option Z;
  timestamp : Q;
  source : string
}.
End MarketPrice.

Module TechnicalIndicators.
Record t : Type := {
  symbol : string;
  rsi : Q;
  macd : Q;
  sma_20 : Q;
  sma_50 : Q;
  timestamp : Q
}.
End TechnicalIndicators.

(** A value of [price_cache]: [{'data': ..., 'timestamp': ...}]. *)
Record cache_entry : Type := { data : MarketPrice.t; stored_at : Q }.

(** The module state: the cache, and the symbols [ticker.history] was asked
    for so far (most recent first), which the code does not keep. *)
Record state : Type := {
  price_cache : gmap string cache_entry;
  upstream_calls : list string
}.

Definition CACHE_DURATION : Q := 10.

(** What one call of [get_yahoo_finance_data] reads from outside: the clock
    at the cache check, the upstream's answer if it is asked, the clock at
    [datetime.now()] and the clock when the entry is stored. *)
Record call : Type := {
  time_at_check : Q;
  history : result frame;
  now : Q;
  time_at_store : Q
}.

(** The live entry of the cache for [cache_key], if there is one. *)
Definition cache_hit (cache : gmap string cache_entry) (cache_key : string)
    (time : Q) : option MarketPrice.t :=
  match cache !! cache_key with
  | Some cached_data =>
      if Qltb (time - stored_at cached_data) CACHE_DURATION
      then Some (data cached_data)
      else None
  | None => None
  end.

(** The quote built from a frame of at least two rows. *)
Definition quote_of (symbol : string) (hist : frame) (now : Q)
  : result MarketPrice.t :=
  current_price ← iloc_neg 1 (closes hist);
  previous_price ← iloc_neg 2 (closes hist);
  let change := (current_price - previous_price)%Q in
  ratio ← Py.div change previous_price;
  let change_percent := (ratio * 100)%Q in
  volume ← (if has_volume hist
            then v ← iloc_neg 1 (volumes hist); Ok (Some v)
            else Ok None);
  Ok {| MarketPrice.symbol := symbol;
        MarketPrice.price := Py.round current_price 2;
        MarketPrice.change := Py.round change 2;
        MarketPrice.change_percent := Py.round change_percent 2;
        MarketPrice.volume := volume;
        MarketPrice.timestamp := now;
        MarketPrice.source := "yahoo_finance" |}.

(** The body of the [try] after the cache check: the quote the upstream
    gives, or [None] when the frame is too short or anything raises. *)
Definition fetch_quote (symbol : string) (c : call) : option MarketPrice.t :=
  match
    hist ← history c;
    if bool_decide (2 <= length (rows hist))%nat
    then market_price ← quote_of symbol hist (now c); Ok (Some market_price)
    else Ok None
  with
  | Ok quote => quote
  | Raise _ => None                      (* except Exception: return None *)
  end.

Definition get_yahoo_finance_data (symbol : string) (c : call) (st : state)
  : option MarketPrice.t * state :=
  let cache_key := "yf_" +:+ symbol in
  match cache_hit (price_cache st) cache_key (time_at_check c) with
  | Some cached => (Some cached, st)
  | None =>
      let calls := symbol :: upstream_calls st in
      match fetch_quote symbol c with
      | Some market_price =>
          (Some market_price,
           {| price_cache :=
                <[cache_key := {| data := market_price;
                                  stored_at := time_at_store c |}]>
                  (price_cache st);
              upstream_calls := calls |})
      | None => (None, {| price_cache := price_cache st;
                          upstream_calls := calls |})
      end
  end.

(** Calls for one symbol one after the other: the results in order and the
    state after the last.  The body of [get_yahoo_finance_data] has no
    [await], so the event loop runs each call to its end before the next:
    callers that overlap are calls in some order. *)
Fixpoint get_each (symbol : string) (calls : list call) (st : state)
  : list (option MarketPrice.t) * state :=
  match calls with
  | [] => ([], st)
  | c :: rest =>
      let '(r, st') := get_yahoo_finance_data symbol c st in
      let '(rs, st'') := get_each symbol rest st' in
      (r :: rs, st'')
  end.

(** A quote of AAPL cached at time 100, and a call at time 200, when the
    entry is 100 s old, to which the upstream answers with an error. *)
Definition aapl_quote : MarketPrice.t :=
  {| MarketPrice.symbol := "AAPL";
     MarketPrice.price := 182.30;
     MarketPrice.change := 6.80;
     MarketPrice.change_percent := 3.87;
     MarketPrice.volume := Some 1000;
     MarketPrice.timestamp := 100;
     MarketPrice.source := "yahoo_finance" |}.

Definition aapl_cached : state :=
  {| price_cache := {[ "yf_AAPL" := {| data := aapl_quote; stored_at := 100 |} ]};
     upstream_calls := [] |}.

Definition upstream_down (time : Q) : call :=
  {| time_at_check := time;
     history := Raise (Exception "HTTPSConnectionPool: Max retries exceeded");
     now := time;
     time_at_store := time |}.

(** A call at [time] to which the upstream answers with the closes 175.50
    and 182.30. *)
Definition upstream_up (time : Q) : call :=
  {| time_at_check := time;
     history := Ok {| rows := [ {| Close := 175.50; Volume := 900 |};
                                {| Close := 182.30; Volume := 1000 |} ];
                      has_volume := true |};
     now := time;
     time_at_store := time |}.

Definition cold : state := {| price_cache := ∅; upstream_calls := [] |}.

(** The four [random.uniform] draws of the fallback. *)
Record draws : Type := {
  uniform_30_70 : Q;
  uniform_m1_1 : Q;
  uniform_150_200 : Q;
  uniform_140_190 : Q
}.

Definition simulated_indicators (symbol : string) (d : draws) (now : Q)
  : TechnicalIndicators.t :=
  {| TechnicalIndicators.symbol := symbol;
     TechnicalIndicators.rsi := uniform_30_70 d;
     TechnicalIndicators.macd := uniform_m1_1 d;
     TechnicalIndicators.sma_20 := uniform_150_200 d;
     TechnicalIndicators.sma_50 := uniform_140_190 d;
     TechnicalIndicators.timestamp := now |}.

Section Indicators.

(** The pandas pipelines of [calculate_rsi], [calculate_macd] and
    [prices.rolling(window=w).mean().iloc[-1]] on the closing prices. *)
Variable calculate_rsi : list Q -> result Q.
Variable calculate_macd : list Q -> result (Q * Q).
Variable rolling_mean_last : nat -> list Q -> result Q.

Definition get_technical_indicators (symbol : string)
    (history : result frame) (d : draws) (now : Q) : TechnicalIndicators.t :=
  match
    hist ← history;
    if bool_decide (50 <= length (rows hist))%nat then
      let prices := closes hist in
      rsi ← calculate_rsi prices;
      m ← calculate_macd prices;
      sma_20 ← rolling_mean_last 20 prices;
      sma_50 ← rolling_mean_last 50 prices;
      Ok {| TechnicalIndicators.symbol := symbol;
            TechnicalIndicators.rsi := Py.round rsi 2;
            TechnicalIndicators.macd := Py.round m.1 4;
            TechnicalIndicators.sma_20 := Py.round sma_20 2;
            TechnicalIndicators.sma_50 := Py.round sma_50 2;
            TechnicalIndicators.timestamp := now |}
    else
      (* Fallback to simulated data *)
      Ok (simulated_indicators symbol d now)
  with
  | Ok indicators => indicators
  | Raise _ => simulated_indicators symbol d now
  end.

End Indicators.

(** Ten flat bars, and four draws of the fallback. *)
Definition ten_bars : frame :=
  {| rows := replicate 10 {| Close := 100; Volume := 1000 |};
     has_volume := true |}.

Definition some_draws : draws :=
  {| uniform_30_70 := 42.5;
     uniform_m1_1 := 0.3;
     uniform_150_200 := 171;
     uniform_140_190 := 163 |}.

(** A pandas pipeline that is never run. *)
Definition not_run {A : Type} (prices : list Q) : result A :=
  Raise (Exception "not run").

End RealtimeBackend.

(** ** [enhanced_ai_trading_backend.py]: provider fallback and signal *)

Module EnhancedBackend.

(** [MarketPrice] has the fields it has in [realtime_ai_backend.py]. *)
Module MarketPrice := RealtimeBackend.MarketPrice.

Module TechnicalIndicators.
Record t : Type := {
  symbol : string;
  rsi : Q;
  macd : Q;
  macd_signal : Q;
  sma_20 : Q;
  sma_50 : Q;
  timestamp : Q
}.
End TechnicalIndicators.

Module TradeSignal.
Record t : Type := {
  symbol : string;
  action : string;
  confidence : Q;
  price : Q;
  timestamp : Q;
  reasoning : string
}.
End TradeSignal.

Definition base_prices : gmap string Q :=
  list_to_map
    [("AAPL", 182.30%Q); ("GOOGL", 2420.50%Q); ("MSFT", 331.80%Q);
     ("TSLA", 248.50%Q); ("AMZN", 3180.20%Q); ("NVDA", 875.30%Q);
     ("META", 485.60%Q)].

(** The draws of [get_simulated_price]: [random.uniform(-0.05, 0.05)] and
    [random.randint(1000000, 50000000)]. *)
Record simulation : Type := { variation : Q; random_volume : Z }.

Definition get_simulated_price (symbol : string) (d : simulation) (now : Q)
  : result MarketPrice.t :=
  let base_price := default 100%Q (base_prices !! symbol) in
  let current_price := (base_price * (1 + variation d))%Q in
  let change := (current_price - base_price)%Q in
  ratio ← Py.div change base_price;
  let change_percent := (ratio * 100)%Q in
  Ok {| MarketPrice.symbol := symbol;
        MarketPrice.price := Py.round current_price 2;
        MarketPrice.change := Py.round change 2;
        MarketPrice.change_percent := Py.round change_percent 2;
        MarketPrice.volume := Some (random_volume d);
        MarketPrice.timestamp := now;
        MarketPrice.source := "simulated" |}.

Section Providers.

(** The two upstream providers with their caches, [get_alpha_vantage_price]
    and [get_yahoo_finance_price]: each returns a quote or [None] and the
    module state after the call. *)
Context {state : Type}.
Variable get_alpha_vantage_price : string -> state -> option MarketPrice.t * state.
Variable get_yahoo_finance_price : string -> state -> option MarketPrice.t * state.

Definition get_market_price (symbol : string) (d : simulation) (now : Q)
    (st : state) : result MarketPrice.t * state :=
  (* Try Alpha Vantage first *)
  match get_alpha_vantage_price symbol st with
  | (Some price, st1) => (Ok price, st1)
  | (None, st1) =>
      (* Fallback to Yahoo Finance *)
      match get_yahoo_finance_price symbol st1 with
      | (Some price, st2) => (Ok price, st2)
      | (None, st2) =>
          (* Final fallback to simulated data *)
          (get_simulated_price symbol d now, st2)
      end
  end.

End Providers.

(** The running totals of the scoring: [buy_score], [sell_score] and
    [reasoning_factors]. *)
Record tally : Type := {
  buy_score : Z;
  sell_score : Z;
  reasoning_factors : list string
}.

Definition vote_buy (weight : Z) (tag : string) (t : tally) : tally :=
  {| buy_score := buy_score t + weight;
     sell_score := sell_score t;
     reasoning_factors := reasoning_factors t ++ [tag] |}.

Definition vote_sell (weight : Z) (tag : string) (t : tally) : tally :=
  {| buy_score := buy_score t;
     sell_score := sell_score t + weight;
     reasoning_factors := reasoning_factors t ++ [tag] |}.

Definition rsi_analysis (ti : TechnicalIndicators.t) (t : tally) : tally :=
  if Qltb (TechnicalIndicators.rsi ti) 30
  then vote_buy 2 "RSI oversold (bullish)" t
  else if Qltb 70 (TechnicalIndicators.rsi ti)
  then vote_sell 2 "RSI overbought (bearish)" t
  else t.

Definition macd_analysis (ti : TechnicalIndicators.t) (t : tally) : tally :=
  if Qltb (TechnicalIndicators.macd_signal ti) (TechnicalIndicators.macd ti)
  then vote_buy 1 "MACD bullish crossover" t
  else vote_sell 1 "MACD bearish crossover" t.

Definition price_momentum (p : MarketPrice.t) (t : tally) : tally :=
  if Qltb 2 (MarketPrice.change_percent p)
  then vote_buy 1 "Strong positive momentum" t
  else if Qltb (MarketPrice.change_percent p) (-2)
  then vote_sell 1 "Strong negative momentum" t
  else t.

Definition moving_average_analysis (p : MarketPrice.t)
    (ti : TechnicalIndicators.t) (t : tally) : tally :=
  let price := MarketPrice.price p in
  let sma_20 := TechnicalIndicators.sma_20 ti in
  let sma_50 := TechnicalIndicators.sma_50 ti in
  if Qltb sma_20 price && Qltb sma_50 sma_20
  then vote_buy 1 "Price above rising MA" t
  else if Qltb price sma_20 && Qltb sma_20 sma_50
  then vote_sell 1 "Price below falling MA" t
  else t.

(** The totals when the four analyses have run. *)
Definition score (price_data : MarketPrice.t) (ti : TechnicalIndicators.t)
  : tally :=
  moving_average_analysis price_data ti
    (price_momentum price_data
       (macd_analysis ti
          (rsi_analysis ti
             {| buy_score := 0; sell_score := 0; reasoning_factors := [] |}))).

(** "Determine action and confidence": action, confidence and the factors. *)
Definition determine (t : tally) (draw : nat) : string * Q * list string :=
  if sell_score t <? buy_score t then
    ("buy", Py.min 0.95 (0.6 + inject_Z (buy_score t) * 0.1), reasoning_factors t)
  else if buy_score t <? sell_score t then
    ("sell", Py.min 0.95 (0.6 + inject_Z (sell_score t) * 0.1), reasoning_factors t)
  else
    (Py.choice draw ["buy"; "sell"], 0.5%Q,
     reasoning_factors t ++ ["Mixed signals"]).

Definition reasoning_text (factors : list string) : string :=
  match factors with
  | [] => "Technical analysis"
  | _ => Py.join "; " factors
  end.

Definition generate_ai_signal_with_analysis (symbol : string)
    (price_data : MarketPrice.t) (tech_indicators : TechnicalIndicators.t)
    (draw : nat) (now : Q) : TradeSignal.t :=
  let '(action, confidence, factors) :=
    determine (score price_data tech_indicators) draw in
  {| TradeSignal.symbol := symbol;
     TradeSignal.action := action;
     TradeSignal.confidence := confidence;
     TradeSignal.price := MarketPrice.price price_data;
     TradeSignal.timestamp := now;
     TradeSignal.reasoning := reasoning_text factors |}.



End EnhancedBackend.

(** ** [complete_ai_backend.py]: the signal on cached quotes *)

Module CompleteBackend.
Import RealtimeBackend.
Module TradeSignal := EnhancedBackend.TradeSignal.

(** [get_yahoo_finance_data] is that of [realtime_ai_backend.py] with the same
    [CACHE_DURATION = 10]; the quote is also handed to [save_price_to_db]
    after it is cached. *)
Definition get_yahoo_finance_data := RealtimeBackend.get_yahoo_finance_data.

Record tally : Type := {
  buy_signals : Z;
  sell_signals : Z;
  reasoning_parts : list string
}.

Definition price_momentum (p : MarketPrice.t) (t : tally) : tally :=
  if Qltb 2 (MarketPrice.change_percent p) then
    {| buy_signals := buy_signals t + 1; sell_signals := sell_signals t;
       reasoning_parts := reasoning_parts t ++ ["Strong upward momentum"] |}
  else if Qltb (MarketPrice.change_percent p) (-2) then
    {| buy_signals := buy_signals t; sell_signals := sell_signals t + 1;
       reasoning_parts := reasoning_parts t ++ ["Strong downward momentum"] |}
  else t.

(** [rsi] is the draw of [random.uniform(20, 80)]. *)
Definition random_rsi (rsi : Q) (t : tally) : tally :=
  if Qltb rsi 30 then
    {| buy_signals := buy_signals t + 2; sell_signals := sell_signals t;
       reasoning_parts := reasoning_parts t ++ ["RSI oversold"] |}
  else if Qltb 70 rsi then
    {| buy_signals := buy_signals t; sell_signals := sell_signals t + 2;
       reasoning_parts := reasoning_parts t ++ ["RSI overbought"] |}
  else t.

Definition score (price_data : MarketPrice.t) (rsi : Q) : tally :=
  random_rsi rsi
    (price_momentum price_data
       {| buy_signals := 0; sell_signals := 0; reasoning_parts := [] |}).

Definition determine (t : tally) (draw : nat) : string * Q * list string :=
  if sell_signals t <? buy_signals t then
    ("buy", Py.min 0.95 (0.6 + inject_Z (buy_signals t) * 0.1), reasoning_parts t)
  else if buy_signals t <? sell_signals t then
    ("sell", Py.min 0.95 (0.6 + inject_Z (sell_signals t) * 0.1), reasoning_parts t)
  else
    (Py.choice draw ["buy"; "sell"], 0.5%Q,
     reasoning_parts t ++ ["Mixed signals"]).

(** The signal and the state after the call.  Nothing in the [try] block
    raises in this model, so its [except] branch is not reached. *)
Definition generate_ai_signal (symbol : string) (c : call) (rsi : Q)
    (draw : nat) (now : Q) (st : state) : TradeSignal.t * state :=
  match get_yahoo_finance_data symbol c st with
  | (None, st') =>
      ({| TradeSignal.symbol := symbol;
          TradeSignal.action := Py.choice draw ["buy"; "sell"];
          TradeSignal.confidence := 0.5;
          TradeSignal.price := 100.0;
          TradeSignal.timestamp := now;
          TradeSignal.reasoning := "Data unavailable" |}, st')
  | (Some price_data, st') =>
      let '(action, confidence, parts) := determine (score price_data rsi) draw in
      ({| TradeSignal.symbol := symbol;
          TradeSignal.action := action;
          TradeSignal.confidence := Py.round confidence 2;
          TradeSignal.price := MarketPrice.price price_data;
          TradeSignal.timestamp := now;
          TradeSignal.reasoning := EnhancedBackend.reasoning_text parts |}, st')
  end.

End CompleteBackend.

(** ** [backend/app/core/config.py] *)

Module Config.

Record Settings : Type := {
  default_position_size : Q;
  rsi_period : Z;
  rsi_overbought : Z;
  rsi_oversold : Z;
  macd_fast : Z;
  macd_slow : Z;
  macd_signal : Z;
  ai_confidence_threshold : Q;
  ai_trading_enabled : bool
}.

(** The defaults of the class. *)
Definition defaults : Settings :=
  {| default_position_size := 1000.0;
     rsi_period := 14;
     rsi_overbought := 70;
     rsi_oversold := 30;
     macd_fast := 12;
     macd_slow := 26;
     macd_signal := 9;
     ai_confidence_threshold := 0.75;
     ai_trading_enabled := false |}.

End Config.

(** ** [backend/app/services/market_data.py]: the indicator service *)

Module MarketDataService.
Import Upstream Config.

(** The dict [get_technical_indicators] returns, block by block. *)
Module Rsi.
Record t : Type := {
  current : option Q;
  overbought : bool;
  oversold : bool;
  history : list Q
}.
End Rsi.

Module Macd.
Record t : Type := {
  macd : option Q;
  signal : option Q;
  histogram : option Q;
  bullish : bool
}.
End Macd.

Module MovingAverages.
Record t : Type := {
  sma_20 : option Q;
  sma_50 : option Q;
  ema_12 : option Q;
  ema_26 : option Q
}.
End MovingAverages.

Module BollingerBands.
Record t : Type := { upper : option Q; middle : option Q; lower : option Q }.
End BollingerBands.

Module VolumeBlock.
Record t : Type := { current : Z; average : Z; volume_spike : bool }.
End VolumeBlock.

Module Indicators.
Record t : Type := {
  symbol : string;
  rsi : Rsi.t;
  macd : Macd.t;
  moving_averages : MovingAverages.t;
  bollinger_bands : BollingerBands.t;
  volume : VolumeBlock.t
}.
End Indicators.

(** The bar count below which the service refuses to compute. *)
Definition MIN_BARS : nat := 50.

Definition insufficient_data : exn :=
  Exception "Insufficient data for indicators calculation".

(** [round(x, n) if x else None]. *)
Definition round_if (x : option Q) (n : nat) : option Q :=
  if Py.truthy x then (fun q => Py.round q n) <$> x else None.

(** [round(float(s.dropna().iloc[-1]), n) if len(s.dropna()) > 0 else None]. *)
Definition round_last (s : list Q) (n : nat) : option Q :=
  (fun q => Py.round q n) <$> last s.

Section Service.

Variable settings : Settings.

(** The pandas series of the service, each as the list of its values that
    are not NaN ([dropna()]), on a list of prices:
    the RSI pipeline for a period, [ewm(span=n).mean()],
    [rolling(window=w).mean()] and [rolling(window=w).std()]. *)
Variable rsi_series : Z -> list Q -> list Q.
Variable ewm_mean : Z -> list Q -> list Q.
Variable rolling_mean : nat -> list Q -> list Q.
Variable rolling_std : nat -> list Q -> list Q.

Definition compute_indicators (symbol : string) (hist : frame)
  : result Indicators.t :=
  let prices := closes hist in
  let rsi := rsi_series (rsi_period settings) prices in
  let ema_12 := ewm_mean (macd_fast settings) prices in
  let ema_26 := ewm_mean (macd_slow settings) prices in
  let macd := zip_with Qminus ema_12 ema_26 in
  let macd_signal := ewm_mean (Config.macd_signal settings) macd in
  let macd_hist := zip_with Qminus macd macd_signal in
  let sma_20 := rolling_mean 20 prices in
  let sma_50 := rolling_mean 50 prices in
  let std_20 := rolling_std 20 prices in
  let bb_upper := zip_with (fun m sd => m + sd * 2)%Q sma_20 std_20 in
  let bb_lower := zip_with (fun m sd => m - sd * 2)%Q sma_20 std_20 in
  if negb (has_volume hist) then Raise (KeyError "Volume") else
  let volume_sma := rolling_mean 20 (inject_Z <$> volumes hist) in
  let current_rsi := last rsi in
  let current_macd := last macd in
  let current_macd_signal := last macd_signal in
  let current_macd_hist := last macd_hist in
  current_volume ← iloc_neg 1 (volumes hist);
  Ok {| Indicators.symbol := symbol;
        Indicators.rsi :=
          {| Rsi.current := round_if current_rsi 2;
             Rsi.overbought :=
               if Py.truthy current_rsi
               then from_option (Qltb (inject_Z (rsi_overbought settings)))
                                false current_rsi
               else false;
             Rsi.oversold :=
               if Py.truthy current_rsi
               then from_option
                      (fun r => Qltb r (inject_Z (rsi_oversold settings)))
                      false current_rsi
               else false;
             Rsi.history := (fun x => Py.round x 2) <$> slice_from (-30) rsi |};
        Indicators.macd :=
          {| Macd.macd := round_if current_macd 4;
             Macd.signal := round_if current_macd_signal 4;
             Macd.histogram := round_if current_macd_hist 4;
             Macd.bullish :=
               if Py.truthy current_macd && Py.truthy current_macd_signal
               then match current_macd, current_macd_signal with
                    | Some m, Some sg => Qltb sg m
                    | _, _ => false
                    end
               else false |};
        Indicators.moving_averages :=
          {| MovingAverages.sma_20 := round_last sma_20 2;
             MovingAverages.sma_50 := round_last sma_50 2;
             MovingAverages.ema_12 := round_last ema_12 2;
             MovingAverages.ema_26 := round_last ema_26 2 |};
        Indicators.bollinger_bands :=
          {| BollingerBands.upper := round_last bb_upper 2;
             BollingerBands.middle := round_last sma_20 2;
             BollingerBands.lower := round_last bb_lower 2 |};
        Indicators.volume :=
          {| VolumeBlock.current := current_volume;
             VolumeBlock.average := from_option Py.int 0 (last volume_sma);
             VolumeBlock.volume_spike :=
               from_option
                 (fun avg => Qltb (avg * 1.5) (inject_Z current_volume))
                 false (last volume_sma) |} |}.

(** [history] is what [ticker.history(period=period)] did.  Every exception
    is logged and raised again. *)
Definition get_technical_indicators (symbol : string)
    (history : result frame) : result Indicators.t :=
  hist ← history;
  if bool_decide (length (rows hist) < MIN_BARS)%nat
  then Raise insufficient_data     (* Need enough data for indicators *)
  else compute_indicators symbol hist.

(** The longest window of the configured indicators: the RSI period, the
    slow EMA span and the long SMA window. *)
Definition longest_period : Z :=
  Z.max (rsi_period settings) (Z.max (macd_slow settings) 50).

End Service.

End MarketDataService.

(** ** [backend/app/ai/trading_ai.py]: confidence and decision *)

Module TradingAI.
Import Config MarketDataService.

(** The dict [_analyze_news_sentiment] returns, by the keys that are read. *)
Record news_sentiment_t : Type := { overall : string; score : option Q }.

(** The dict [analyze_symbol] returns, by the keys the decision reads.  An
    optional field is a key that may be absent; [news_sentiment] is [None]
    when the analysis had no news. *)
Record analysis_t : Type := {
  price : option Q;                      (* price_data.get("price", 100) *)
  technical_indicators : Indicators.t;
  overall_trend : option string;         (* technical_analysis["overall_trend"] *)
  volatility : option Q;                 (* risk_analysis.get("volatility", 20) *)
  news_sentiment : option news_sentiment_t
}.

Definition rsi_oversold (a : analysis_t) : bool :=
  Rsi.oversold (Indicators.rsi (technical_indicators a)).
Definition rsi_overbought (a : analysis_t) : bool :=
  Rsi.overbought (Indicators.rsi (technical_indicators a)).
Definition macd_bullish (a : analysis_t) : bool :=
  Macd.bullish (Indicators.macd (technical_indicators a)).
Definition volume_spike (a : analysis_t) : bool :=
  VolumeBlock.volume_spike (Indicators.volume (technical_indicators a)).

Definition trend_is (a : analysis_t) (name : string) : bool :=
  bool_decide (overall_trend a = Some name).

(** [news_sentiment and abs(news_sentiment.get("score", 0)) > 0.2]. *)
Definition strong_news (a : analysis_t) : bool :=
  match news_sentiment a with
  | Some ns => Qltb 0.2 (Py.abs (default 0%Q (score ns)))
  | None => false
  end.

(** The list [confidence_factors], in the order of the appends. *)
Definition confidence_factors (a : analysis_t) : list Q :=
  (if rsi_oversold a || rsi_overbought a then [0.3%Q] else []) ++
  (if macd_bullish a then [0.2%Q] else []) ++
  (if volume_spike a then [0.15%Q] else []) ++
  (if trend_is a "bullish" || trend_is a "bearish" then [0.2%Q] else []) ++
  (if strong_news a then [0.15%Q] else []).

(** "Reduce confidence for high volatility". *)
Definition risk_adjust (volatility base_confidence : Q) : Q :=
  if Qltb 40 volatility then (base_confidence * 0.7)%Q
  else if Qltb 25 volatility then (base_confidence * 0.85)%Q
  else base_confidence.

Definition _calculate_confidence (a : analysis_t) : Q :=
  let base_confidence := Py.min (Py.sum (confidence_factors a)) 1.0 in
  let volatility := default 20%Q (volatility a) in
  let base_confidence := risk_adjust volatility base_confidence in
  Py.round (Py.min (Py.max base_confidence 0.0) 1.0) 3.

Record tally : Type := {
  buy_signals : Z;
  sell_signals : Z;
  reasoning_parts : list string
}.

Definition buy (weight : Z) (tag : string) (t : tally) : tally :=
  {| buy_signals := buy_signals t + weight;
     sell_signals := sell_signals t;
     reasoning_parts := reasoning_parts t ++ [tag] |}.

Definition sell (weight : Z) (tag : string) (t : tally) : tally :=
  {| buy_signals := buy_signals t;
     sell_signals := sell_signals t + weight;
     reasoning_parts := reasoning_parts t ++ [tag] |}.

Definition note (tag : string) (t : tally) : tally :=
  {| buy_signals := buy_signals t;
     sell_signals := sell_signals t;
     reasoning_parts := reasoning_parts t ++ [tag] |}.

Definition rsi_signals (a : analysis_t) (t : tally) : tally :=
  if rsi_oversold a then buy 2 "RSI oversold" t
  else if rsi_overbought a then sell 2 "RSI overbought" t
  else t.

Definition macd_signals (a : analysis_t) (t : tally) : tally :=
  if macd_bullish a then buy 1 "MACD bullish" t else t.

Definition trend_signals (a : analysis_t) (t : tally) : tally :=
  if trend_is a "bullish" then buy 1 "Bullish trend" t
  else if trend_is a "bearish" then sell 1 "Bearish trend" t
  else t.

Definition news_signals (ns : news_sentiment_t) (t : tally) : tally :=
  if bool_decide (overall ns = "positive") then buy 1 "Positive news sentiment" t
  else if bool_decide (overall ns = "negative") then sell 1 "Negative news sentiment" t
  else t.

Definition volume_confirmation (a : analysis_t) (t : tally) : tally :=
  if volume_spike a then note "Volume spike" t else t.

(** The totals of [_make_decision] before "Make decision".  A [None] under
    [news_sentiment] has no [get]. *)
Definition signals (a : analysis_t) : result tally :=
  let t := trend_signals a
             (macd_signals a
                (rsi_signals a
                   {| buy_signals := 0; sell_signals := 0;
                      reasoning_parts := [] |})) in
  match news_sentiment a with
  | None => Raise (AttributeError "NoneType")
  | Some ns => Ok (volume_confirmation a (news_signals ns t))
  end.

Record decision_t : Type := {
  action : string;
  reasoning : string;
  quantity : Z;
  risk_level : string;
  decided_buy_signals : Z;
  decided_sell_signals : Z
}.

Section Decision.

Variable settings : Settings.

Definition _make_decision (a : analysis_t) (confidence : Q)
  : result decision_t :=
  t ← signals a;
  let '(action, risk_level) :=
    if (sell_signals t <? buy_signals t) && Qle_bool 0.5 confidence
    then ("buy", if Qltb 0.8 confidence then "low" else "medium")
    else if (buy_signals t <? sell_signals t) && Qle_bool 0.5 confidence
    then ("sell", if Qltb 0.8 confidence then "low" else "medium")
    else ("hold", "low") in
  quantity ←
    (if bool_decide (action = "buy") || bool_decide (action = "sell") then
       per_share ← Py.div (default_position_size settings)
                          (default 100%Q (price a));
       let base_quantity := Py.int per_share in
       Ok (Py.int (inject_Z base_quantity * confidence))
     else Ok 0);
  Ok {| action := action;
        reasoning :=
          match reasoning_parts t with
          | [] => "Insufficient signals"
          | parts => Py.join "; " parts
          end;
        quantity := quantity;
        risk_level := risk_level;
        decided_buy_signals := buy_signals t;
        decided_sell_signals := sell_signals t |}.

(** The dict [make_trading_decision] returns, for an analysis already
    gathered. *)
Record trading_decision : Type := {
  decision : string;
  confidence : Q;
  decision_reasoning : string;
  suggested_quantity : Z;
  decision_risk_level : string;
  auto_execute : bool
}.

Definition make_trading_decision (a : analysis_t) : result trading_decision :=
  let confidence_score := _calculate_confidence a in
  d ← _make_decision a confidence_score;
  Ok {| decision := action d;
        confidence := confidence_score;
        decision_reasoning := reasoning d;
        suggested_quantity := quantity d;
        decision_risk_level := risk_level d;
        auto_execute :=
          Qle_bool (ai_confidence_threshold settings) confidence_score
          && ai_trading_enabled settings |}.

End Decision.

(** An analysis with an oversold RSI, a bullish MACD, no other factor, and
    an annualized volatility of 45 %. *)
Definition volatile_oversold : analysis_t :=
  {| price := Some 182.30%Q;
     technical_indicators :=
       {| Indicators.symbol := "AAPL";
          Indicators.rsi :=
            {| Rsi.current := Some 24.10%Q; Rsi.overbought := false;
               Rsi.oversold := true; Rsi.history := [] |};
          Indicators.macd :=
            {| Macd.macd := Some 1.2%Q; Macd.signal := Some 0.8%Q;
               Macd.histogram := Some 0.4%Q; Macd.bullish := true |};
          Indicators.moving_averages :=
            {| MovingAverages.sma_20 := None; MovingAverages.sma_50 := None;
               MovingAverages.ema_12 := None; MovingAverages.ema_26 := None |};
          Indicators.bollinger_bands :=
            {| BollingerBands.upper := None; BollingerBands.middle := None;
               BollingerBands.lower := None |};
          Indicators.volume :=
            {| VolumeBlock.current := 1000; VolumeBlock.average := 1000;
               VolumeBlock.volume_spike := false |} |};
     overall_trend := Some "sideways";
     volatility := Some 45%Q;
     news_sentiment := Some {| overall := "neutral"; score := Some 0%Q |} |}.

End TradingAI.

(** ** [backend/app/api/endpoints/websocket.py]: one run of the endpoint *)

Module Endpoint.
Import ConnectionManager WebSocketEndpoint.

Section Run.

Variable json_loads : string -> result json.
Context {WebSocket : Type} `{EqDecision WebSocket}.

(** [websocket_endpoint] for one client, while no other client connects or
    leaves: the session when [inbound] has been received, and whether the
    task of [start_market_data_stream] was created.  An error of
    [accept] leaves the endpoint before its loop. *)
Definition websocket_endpoint (accept : result ()) (websocket : WebSocket)
    (inbound : list received) (active_connections : list WebSocket)
  : result (session * bool) :=
  active' ← connect accept websocket active_connections;
  (* Start market data stream if this is the first connection *)
  let first := bool_decide (length active' = 1%nat) in
  Ok (serve json_loads websocket inbound
        {| open := true; WebSocketEndpoint.active_connections := active';
           outbox := [] |},
      first).

End Run.

End Endpoint.

(** ** [realtime_ai_backend.py]: the loops of [live_price_updater] *)

Module LivePriceUpdater.
Import RealtimeBackend.

Module Position.
Record t : Type := {
  symbol : string;
  quantity : Z;
  entry_price : Q;
  current_price : Q;
  pnl : Q;
  pnl_percent : Q
}.
End Position.

Definition TRACKED_SYMBOLS : list string :=
  ["AAPL"; "MSFT"; "GOOGL"; "TSLA"; "AMZN"; "NVDA"; "META"].

(** The loop that fills [price_updates]: one call of
    [get_yahoo_finance_data] per symbol, each with what it reads from
    outside; a symbol without data is left out. *)
Fixpoint collect_prices (symbols : list string) (calls : string -> call)
    (price_updates : gmap string MarketPrice.t) (st : state)
  : gmap string MarketPrice.t * state :=
  match symbols with
  | [] => (price_updates, st)
  | symbol :: rest =>
      let '(price_data, st') :=
        get_yahoo_finance_data symbol (calls symbol) st in
      collect_prices rest calls
        (match price_data with
         | Some p => <[symbol := p]> price_updates
         | None => price_updates
         end) st'
  end.

(** [price_updates] of one cycle: the first five tracked symbols. *)
Definition price_updates_of (calls : string -> call) (st : state)
  : gmap string MarketPrice.t * state :=
  collect_prices (take 5 TRACKED_SYMBOLS) calls ∅ st.






(** A call at [time] to which the upstream answers with the closes [prev]
    and [cur]. *)
Definition answered (time prev cur : Q) : call :=
  {| time_at_check := time;
     history := Ok {| Upstream.rows :=
                        [ {| Upstream.Close := prev; Upstream.Volume := 1 |};
                          {| Upstream.Close := cur; Upstream.Volume := 2 |} ];
                      Upstream.has_volume := true |};
     now := time;
     time_at_store := time |}.

(** The upstream is down for MSFT and up for every other symbol. *)
Definition msft_down (symbol : string) : call :=
  if decide (symbol = "MSFT") then upstream_down 100
  else answered 100 100 110.


End LivePriceUpdater.

(** ** [realtime_ai_backend.py]: the market analysis endpoint *)

Module AiAnalysis.
Import Upstream RealtimeBackend.

(** A value of [market_data]. *)
Record entry : Type := {
  price : Q;
  change_percent : Q;
  rsi : Q;
  macd : Q;
  sentiment : Q
}.

(** What the two calls for one symbol read from outside. *)
Record reading : Type := {
  quote_call : call;
  indicator_history : result frame;
  indicator_draws : draws;
  indicator_time : Q
}.

(** The dict the endpoint returns, by the keys that depend on the data. *)
Record analysis : Type := {
  market_sentiment : string;
  score : Q;
  market_data : list (string * entry);
  recommendations : list string
}.

(** The three votes of one symbol. *)
Definition sentiment_score (p : MarketPrice.t) (ti : TechnicalIndicators.t)
  : Z :=
  (if Qltb 50 (TechnicalIndicators.rsi ti) then 1 else 0)
  + (if Qltb 0 (TechnicalIndicators.macd ti) then 1 else 0)
  + (if Qltb 0 (MarketPrice.change_percent p) then 1 else 0).

(** The loop over [market_data.items()]. *)
Fixpoint recommend (market_data : list (string * entry)) : list string :=
  match market_data with
  | [] => []
  | (symbol, data) :: rest =>
      if Qltb (rsi data) 30
      then (symbol +:+ ": Oversold - potential buy opportunity") :: recommend rest
      else if Qltb 70 (rsi data)
      then (symbol +:+ ": Overbought - consider profit taking") :: recommend rest
      else recommend rest
  end.

Section Endpoint.

Variable calculate_rsi : list Q -> result Q.
Variable calculate_macd : list Q -> result (Q * Q).
Variable rolling_mean_last : nat -> list Q -> result Q.

(** The loop over [symbols]: [market_data], [total_sentiment] and the state
    of the cache after it. *)
Fixpoint gather (symbols : list string) (readings : string -> reading)
    (market_data : list (string * entry)) (total_sentiment : Q) (st : state)
  : list (string * entry) * Q * state :=
  match symbols with
  | [] => (market_data, total_sentiment, st)
  | symbol :: rest =>
      let r := readings symbol in
      let '(price_data, st') :=
        get_yahoo_finance_data symbol (quote_call r) st in
      let tech_indicators :=
        get_technical_indicators calculate_rsi calculate_macd
          rolling_mean_last symbol (indicator_history r)
          (indicator_draws r) (indicator_time r) in
      match price_data with
      | Some p =>
          let sentiment := (inject_Z (sentiment_score p tech_indicators) / 3)%Q in
          gather rest readings
            (market_data ++
               [(symbol,
                 {| price := MarketPrice.price p;
                    change_percent := MarketPrice.change_percent p;
                    rsi := TechnicalIndicators.rsi tech_indicators;
                    macd := TechnicalIndicators.macd tech_indicators;
                    sentiment := sentiment |})])
            (total_sentiment + sentiment)%Q st'
      | None => gather rest readings market_data total_sentiment st'
      end
  end.

Definition symbols : list string := ["AAPL"; "MSFT"; "GOOGL"].

(** The [try] block of [get_ai_analysis]; nothing in it raises in this
    model. *)
Definition get_ai_analysis (readings : string -> reading) (st : state)
  : analysis * state :=
  let '(market_data, total_sentiment, st') := gather symbols readings [] 0 st in
  let avg_sentiment := (total_sentiment / inject_Z (Z.of_nat (length symbols)))%Q in
  let sentiment :=
    if Qltb 0.6 avg_sentiment then "Bullish"
    else if Qltb avg_sentiment 0.4 then "Bearish"
    else "Neutral" in
  let recommendations :=
    match recommend market_data with
    | [] => ["Markets are balanced - monitor for breakout opportunities"]
    | l => l
    end in
  ({| market_sentiment := sentiment;
      score := Py.round avg_sentiment 2;
      market_data := market_data;
      recommendations := recommendations |}, st').

End Endpoint.

End AiAnalysis.

(** ** [backend/app/services/market_data.py]: the current price *)

Module CurrentPrice.

(** One row of [ticker.history(period="1d")] with the label of its index. *)
Record candle : Type := {
  Open : Q;
  High : Q;
  Low : Q;
  Close : Q;
  Volume : Z;
  index : string
}.

(** What the ticker gives: [info] by its key [previousClose], which may be
    absent, and the frame with or without a [Volume] column. *)
Record ticker : Type := {
  info : result (option Q);
  history : result (list candle * bool)
}.

Record price_data : Type := {
  symbol : string;
  price : Q;
  change : Q;
  change_percent : Q;
  volume : Z;
  high : Q;
  low : Q;
  open : Q;
  timestamp : string
}.

(** Every exception is logged and raised again. *)
Definition get_current_price (symbol : string) (t : ticker)
  : result price_data :=
  previous ← info t;
  '(rows, has_volume) ← history t;
  match last rows with
  | None => Raise (Exception ("No data found for symbol " +:+ symbol))
  | Some row =>
      let current_price := Close row in
      let prev_close := default current_price previous in
      let change := (current_price - prev_close)%Q in
      change_percent ←
        (if Py.truthy (Some prev_close)
         then ratio ← Py.div change prev_close; Ok (ratio * 100)%Q
         else Ok 0%Q);
      Ok {| symbol := symbol;
            price := Py.round current_price 2;
            change := Py.round change 2;
            change_percent := Py.round change_percent 2;
            volume := if (has_volume : bool) then Volume row else 0;
            high := Py.round (High row) 2;
            low := Py.round (Low row) 2;
            open := Py.round (Open row) 2;
            timestamp := index row |}
  end.

(** A day of AAPL, and a ticker whose [info] reports a previous close of 0. *)
Definition aapl_day : candle :=
  {| Open := 180; High := 184; Low := 179.5; Close := 182.30;
     Volume := 1000; index := "2024-10-16T00:00:00-04:00" |}.

Definition zero_previous_close : ticker :=
  {| info := Ok (Some 0%Q); history := Ok ([aapl_day], true) |}.

End CurrentPrice.

(** ** [backend/app/services/analysis.py]: risk rating and pivot levels *)

Module AnalysisService.

Definition _get_risk_rating (volatility : Q) : string :=
  if Qltb volatility 15 then "Low"
  else if Qltb volatility 25 then "Medium"
  else if Qltb volatility 40 then "High"
  else "Very High".

(** The keys [volatility] and [risk_rating] of the dict of
    [get_risk_analysis], from the annualized volatility
    [returns.std() * np.sqrt(252) * 100]. *)
Record risk : Type := { volatility : Q; risk_rating : string }.

Definition risk_of (annualized : Q) : risk :=
  {| volatility := Py.round annualized 2;
     risk_rating := _get_risk_rating annualized |}.





End AnalysisService.

(** ** [backend/app/ai/trading_ai.py]: the news sentiment *)

Module NewsSentiment.

(** The dict of [_analyze_news_sentiment]; the two counts are absent when
    there is no article. *)
Record report : Type := {
  overall : string;
  score : Q;
  article_count : nat;
  positive_articles : option nat;
  negative_articles : option nat
}.

(** [news_data] is given by the polarities of its articles, [None] for an
    article without one; [None] for no news at all. *)
Definition _analyze_news_sentiment (news_data : option (list (option Q)))
  : report :=
  match news_data with
  | None | Some [] =>
      {| overall := "neutral"; score := 0.0; article_count := 0;
         positive_articles := None; negative_articles := None |}
  | Some articles =>
      let sentiments := default 0%Q <$> articles in
      let avg_sentiment :=
        (Py.sum sentiments / inject_Z (Z.of_nat (length sentiments)))%Q in
      {| overall :=
           if Qltb 0.1 avg_sentiment then "positive"
           else if Qltb avg_sentiment (-0.1) then "negative"
           else "neutral";
         score := Py.round avg_sentiment 3;
         article_count := length articles;
         positive_articles :=
           Some (length (filter (fun s => Qltb 0.1 s = true) sentiments));
         negative_articles :=
           Some (length (filter (fun s => Qltb s (-0.1) = true) sentiments)) |}
  end.

(** The keys of the report that the decision reads. *)
Definition read (r : report) : TradingAI.news_sentiment_t :=
  {| TradingAI.overall := overall r; TradingAI.score := Some (score r) |}.

End NewsSentiment.

(** ** [backend/app/services/trading.py]: trades and the portfolio *)

Module TradingService.

(** A row of the [portfolio] table; its [symbol] column is unique and is the
    key of the table below. *)
Module Portfolio.
Record t : Type := { quantity : Z; avg_price : Q }.
End Portfolio.

(** A row of the [trades] table, by the columns [execute_trade] sets and
    the [pnl] column the summary reads. *)
Module Trade.
Record t : Type := {
  symbol : string;
  action : string;
  quantity : Z;
  price : Q;
  order_type : string;
  status : string;
  fees : Q;
  ai_decision : bool;
  pnl : option Q
}.
End Trade.

(** The database session: the two tables. *)
Record db : Type := {
  portfolio : gmap string Portfolio.t;
  trades : list Trade.t
}.

Definition _update_portfolio (symbol action : string) (quantity : Z)
    (price : Q) (table : gmap string Portfolio.t)
  : result (gmap string Portfolio.t) :=
  match table !! symbol with
  | None =>
      (* New position *)
      if decide (action = "buy")
      then Ok (<[symbol := {| Portfolio.quantity := quantity;
                              Portfolio.avg_price := price |}]> table)
      else Ok table
  | Some portfolio_item =>
      (* Update existing position *)
      if decide (action = "buy") then
        let total_cost :=
          (inject_Z (Portfolio.quantity portfolio_item)
           * Portfolio.avg_price portfolio_item
           + inject_Z quantity * price)%Q in
        let total_quantity := Portfolio.quantity portfolio_item + quantity in
        avg_price ← Py.div total_cost (inject_Z total_quantity);
        Ok (<[symbol := {| Portfolio.quantity := total_quantity;
                           Portfolio.avg_price := avg_price |}]> table)
      else if decide (action = "sell") then
        let left := Portfolio.quantity portfolio_item - quantity in
        if left <=? 0
        then Ok (delete symbol table)                  (* Close position *)
        else Ok (<[symbol := {| Portfolio.quantity := left;
                                Portfolio.avg_price :=
                                  Portfolio.avg_price portfolio_item |}]> table)
      else Ok table
  end.

(** The dict [execute_trade] returns, without the id and the timestamp the
    database assigns. *)
Record receipt : Type := {
  traded_symbol : string;
  traded_action : string;
  traded_quantity : Z;
  executed_price : Q;
  charged_fees : Q
}.

(** [current_price] is what [get_current_price(symbol)["price"]] gave.  An
    exception rolls the session back and is raised again. *)
Definition execute_trade (current_price : result Q) (symbol action : string)
    (quantity : Z) (order_type : string) (limit_price : option Q) (d : db)
  : result receipt * db :=
  match
    current_price ← current_price;
    let execution_price :=
      if bool_decide (order_type = "limit") && Py.truthy limit_price
      then default current_price limit_price
      else current_price in
    (* Calculate fees (0.1% commission) *)
    let fees := (execution_price * inject_Z quantity * 0.001)%Q in
    let trade :=
      {| Trade.symbol := symbol; Trade.action := action;
         Trade.quantity := quantity; Trade.price := execution_price;
         Trade.order_type := order_type; Trade.status := "executed";
         Trade.fees := fees; Trade.ai_decision := false;
         Trade.pnl := Some 0.0%Q |} in
    table ← _update_portfolio symbol action quantity execution_price
              (portfolio d);
    Ok ({| traded_symbol := symbol; traded_action := action;
           traded_quantity := quantity; executed_price := execution_price;
           charged_fees := fees |},
        {| portfolio := table; trades := trades d ++ [trade] |})
  with
  | Ok (r, d') => (Ok r, d')
  | Raise e => (Raise e, d)
  end.

Definition close_position (current_price : result Q) (symbol : string)
    (d : db) : result receipt * db :=
  match portfolio d !! symbol with
  | None => (Raise (Exception ("No position found for " +:+ symbol)), d)
  | Some portfolio_item =>
      execute_trade current_price symbol "sell"
        (Portfolio.quantity portfolio_item) "market" None d
  end.

(** An entry of the list [get_positions] returns. *)
Record position : Type := {
  symbol : string;
  quantity : Z;
  avg_price : Q;
  current_price : Q;
  market_value : Q;
  cost_basis : Q;
  unrealized_pnl : Q;
  unrealized_pnl_percent : Q
}.

Definition position_of (symbol : string) (row : Portfolio.t)
    (current_price : Q) : position :=
  let market_value := (inject_Z (Portfolio.quantity row) * current_price)%Q in
  let cost_basis :=
    (inject_Z (Portfolio.quantity row) * Portfolio.avg_price row)%Q in
  let unrealized_pnl := (market_value - cost_basis)%Q in
  {| symbol := symbol;
     quantity := Portfolio.quantity row;
     avg_price := Py.round (Portfolio.avg_price row) 2;
     current_price := current_price;
     market_value := Py.round market_value 2;
     cost_basis := Py.round cost_basis 2;
     unrealized_pnl := Py.round unrealized_pnl 2;
     unrealized_pnl_percent :=
       if Qltb 0 cost_basis
       then Py.round (unrealized_pnl / cost_basis * 100) 2
       else 0 |}.

(** [rows] is what [self.db.query(Portfolio).all()] gave, and [price_of] what
    [get_current_price] does for a symbol. *)
Fixpoint get_positions (price_of : string -> result Q)
    (rows : list (string * Portfolio.t)) : result (list position) :=
  match rows with
  | [] => Ok []
  | (symbol, row) :: rest =>
      current_price ← price_of symbol;
      positions ← get_positions price_of rest;
      Ok (position_of symbol row current_price :: positions)
  end.

(** The dict of [get_portfolio_summary], without the list of positions. *)
Record summary : Type := {
  total_value : Q;
  total_cost : Q;
  summary_unrealized_pnl : Q;
  realized_pnl : Q;
  total_pnl : Q;
  total_return_percent : Q;
  positions_count : nat;
  total_trades : nat;
  winning_trades : nat;
  win_rate : Q
}.

(** [t.pnl and t.pnl > 0]. *)
Definition winning (t : Trade.t) : bool :=
  match Trade.pnl t with
  | Some pnl => Qltb 0 pnl
  | None => false
  end.

Definition get_portfolio_summary (price_of : string -> result Q)
    (rows : list (string * Portfolio.t)) (all_trades : list Trade.t)
  : result summary :=
  positions ← get_positions price_of rows;
  let total_value := Py.sum (market_value <$> positions) in
  let total_cost := Py.sum (cost_basis <$> positions) in
  let total_pnl := Py.sum (unrealized_pnl <$> positions) in
  let realized_pnl := Py.sum (omap Trade.pnl all_trades) in
  let total_trades := length all_trades in
  let winning_trades := length (filter (fun t => winning t = true) all_trades) in
  let win_rate :=
    if bool_decide (0 < total_trades)%nat
    then (inject_Z (Z.of_nat winning_trades)
          / inject_Z (Z.of_nat total_trades) * 100)%Q
    else 0%Q in
  Ok {| total_value := Py.round total_value 2;
        total_cost := Py.round total_cost 2;
        summary_unrealized_pnl := Py.round total_pnl 2;
        realized_pnl := Py.round realized_pnl 2;
        total_pnl := Py.round (total_pnl + realized_pnl) 2;
        total_return_percent :=
          if Qltb 0 total_cost
          then Py.round (total_pnl / total_cost * 100) 2
          else 0;
        positions_count := length positions;
        total_trades := total_trades;
        winning_trades := winning_trades;
        win_rate := Py.round win_rate 2 |}.

(** Ten shares of AAPL at 150. *)
Definition ten_aapl : gmap string Portfolio.t :=
  {[ "AAPL" := {| Portfolio.quantity := 10; Portfolio.avg_price := 150 |} ]}.

End TradingService.

(** * Properties *)

(** Runs the binds of the [result] monad that have a value in hand. *)
Ltac run_bind := cbn [mbind result_bind bind].

(** ** Arithmetic of the Python layer *)

Section PyFacts.
Local Open Scope Q_scope.

Lemma Qltb_lt (a b : Q) : Qltb a b = true <-> a < b.
Proof.
  unfold Qltb. rewrite negb_true_iff, <- not_true_iff_false, Qle_bool_iff.
  split; [apply Qnot_le_lt | apply Qlt_not_le].
Qed.

Lemma Qltb_ge (a b : Q) : Qltb a b = false <-> b <= a.
Proof.
  unfold Qltb. rewrite negb_false_iff. apply Qle_bool_iff.
Qed.

Lemma Qeq_bool_false (a b : Q) : Qeq_bool a b = false <-> ~ a == b.
Proof.
  rewrite <- not_true_iff_false, Qeq_bool_iff. tauto.
Qed.

Lemma fold_plus_ge (l : list Q) (a : Q) :
  Forall (Qle 0) l -> a <= fold_left Qplus l a.
Proof.
  intros H. revert a. induction H as [|x l Hx _ IH]; intros a; simpl.
  - apply Qle_refl.
  - eapply Qle_trans; [|apply IH]. lra.
Qed.

Lemma sum_nonneg (l : list Q) : Forall (Qle 0) l -> 0 <= Py.sum l.
Proof. apply fold_plus_ge. Qed.



Lemma div_ok (a b : Q) : ~ b == 0 -> Py.div a b = Ok (a / b).
Proof.
  intros H. unfold Py.div. apply Qeq_bool_false in H. by rewrite H.
Qed.

Lemma min_bounds (a b lo : Q) : lo <= a -> lo <= b -> lo <= Py.min a b <= b.
Proof.
  intros Ha Hb. unfold Py.min. destruct (Qltb b a) eqn:E.
  - split; [done | apply Qle_refl].
  - apply Qltb_ge in E. done.
Qed.

Lemma max_bounds (a b : Q) : b <= Py.max a b /\ a <= Py.max a b.
Proof.
  unfold Py.max. destruct (Qltb a b) eqn:E.
  - apply Qltb_lt in E. split; [apply Qle_refl | by apply Qlt_le_weak].
  - apply Qltb_ge in E. split; [done | apply Qle_refl].
Qed.

(** Rounding to the nearest integer stays between integer bounds. *)
Lemma round_half_even_bounds (y : Q) (lo hi : Z) :
  inject_Z lo <= y -> y <= inject_Z hi ->
  (lo <= round_half_even y <= hi)%Z.
Proof.
  intros Hlo Hhi.
  assert (Hf1 : (lo <= Qfloor y)%Z).
  { rewrite <- (Qfloor_Z lo). by apply Qfloor_resp_le. }
  assert (Hf2 : (Qfloor y <= hi)%Z).
  { rewrite <- (Qfloor_Z hi). by apply Qfloor_resp_le. }
  unfold round_half_even.
  destruct (Qltb (y - inject_Z (Qfloor y)) (1 # 2)) eqn:E1; [lia|].
  assert (Hlt : (Qfloor y < hi)%Z).
  { apply Qltb_ge in E1.
    destruct (Z.eq_dec (Qfloor y) hi) as [Heq|]; [|lia].
    rewrite Heq in E1. lra. }
  destruct (Qltb (1 # 2) (y - inject_Z (Qfloor y))); [lia|].
  destruct (Z.even (Qfloor y)); lia.
Qed.

Lemma pow10_pos (n : nat) : 0 < inject_Z (10 ^ Z.of_nat n).
Proof.
  change 0 with (inject_Z 0). rewrite <- Zlt_Qlt.
  apply Z.pow_pos_nonneg; lia.
Qed.

(** [round(x, n)] of a value in [[0, 1]] is in [[0, 1]]. *)
Lemma round_unit_interval (x : Q) (n : nat) :
  0 <= x <= 1 -> 0 <= Py.round x n <= 1.
Proof.
  intros [H0 H1]. unfold Py.round.
  pose proof (pow10_pos n) as Hs.
  set (scale := inject_Z (10 ^ Z.of_nat n)) in *.
  destruct (round_half_even_bounds (x * scale) 0 (10 ^ Z.of_nat n)) as [Ha Hb].
  - change (inject_Z 0) with 0. nra.
  - fold scale. nra.
  - split.
    + apply Qle_shift_div_l; [done|]. rewrite Qmult_0_l.
      change 0 with (inject_Z 0). by rewrite <- Zle_Qle.
    + apply Qle_shift_div_r; [done|]. rewrite Qmult_1_l.
      unfold scale. by rewrite <- Zle_Qle.
Qed.

End PyFacts.

(** ** The list-based RSI *)

Section RsiFacts.
Import AiTradingBackend.
Local Open Scope Q_scope.




End RsiFacts.

Section RsiClaims.
Import AiTradingBackend.
Local Open Scope Q_scope.



(** With the default period: every list of fewer than 14 prices. *)
Corollary calculate_rsi_default_short_history (prices : list Q) :
  (length prices < 14)%nat -> calculate_rsi_default prices = Ok 50.
Proof.
  intros H. unfold calculate_rsi_default, calculate_rsi.
  replace (Z.of_nat (length prices) <? 14)%Z with true; [done|].
  symmetry. apply Z.ltb_lt. lia.
Qed.



(** The window of the example has an RSI of 80, and a window that only
    rises has an RSI of 100. *)
Example calculate_rsi_examples :
  calculate_rsi [1; 2; 3; 2; 5] 3 = Ok (1200 # 15) /\
  calculate_rsi [1; 2; 3; 4; 5] 3 = Ok 100 /\
  calculate_rsi [1; 2; 3; 2; 5] 0 = Raise ZeroDivisionError.
Proof. vm_compute. done. Qed.

End RsiClaims.

(** ** The subscriber registry *)

Section RegistryFacts.
Import ConnectionManager.
Context {WebSocket : Type} `{EqDecision WebSocket}.
Implicit Types (ws : WebSocket) (active : list WebSocket).

Lemma list_remove_skip ws (pre post : list WebSocket) :
  ws ∉ pre -> list_remove ws (pre ++ ws :: post) = Ok (pre ++ post).
Proof.
  induction pre as [|y pre IH]; intros Hnot; simpl.
  - by rewrite decide_True.
  - apply not_elem_of_cons in Hnot as [Hne Hnot].
    rewrite decide_False by done. by rewrite IH.
Qed.

Lemma disconnect_skip ws (pre post : list WebSocket) :
  ws ∉ pre -> disconnect ws (pre ++ ws :: post) = Ok (pre ++ post).
Proof.
  intros Hnot. unfold disconnect. rewrite decide_True.
  - by apply list_remove_skip.
  - apply elem_of_app. right. left.
Qed.

Lemma disconnect_absent ws active :
  ws ∉ active -> disconnect ws active = Ok active.
Proof. intros Hnot. unfold disconnect. by rewrite decide_False. Qed.

(** [disconnect] never raises: the membership test guards [remove]. *)
Lemma disconnect_total ws active :
  exists active', disconnect ws active = Ok active'.
Proof.
  destruct (decide (ws ∈ active)) as [Hin|Hnot].
  - apply list_elem_of_split_l in Hin as (pre & post & -> & Hpre).
    eexists. by apply disconnect_skip.
  - eexists. by apply disconnect_absent.
Qed.


(** A connection that is not registered yet keeps the registry free of
    duplicates when it connects. *)
Lemma connect_NoDup ws active :
  NoDup active -> ws ∉ active ->
  exists active', connect (Ok ()) ws active = Ok active' /\ NoDup active'.
Proof.
  intros Hnd Hnot. exists (active ++ [ws]). split; [done|].
  apply NoDup_app. split_and!; [done | | apply NoDup_singleton].
  intros x Hx Hx'. apply list_elem_of_singleton in Hx'. by subst.
Qed.

End RegistryFacts.

Section RegistryClaims.
Import ConnectionManager.




End RegistryClaims.

Section BroadcastFacts.
Import ConnectionManager.
Context {WebSocket : Type} `{EqDecision WebSocket}.
Variable send_text : WebSocket -> string -> send_outcome.
Variable message : string.

Local Abbreviation ok :=
  (fun c : WebSocket => Is_true (delivered (send_text c message))).

Lemma send_to_each_spec (connections : list WebSocket) :
  send_to_each send_text message connections =
    ((fun c => (c, send_text c message)) <$> connections,
     filter (fun c => ¬ ok c) connections).
Proof.
  induction connections as [|c rest IH]; [done|].
  cbn [send_to_each]. rewrite IH. rewrite filter_cons.
  rewrite fmap_cons.
  destruct (send_text c message) eqn:E; cbn [delivered].
  - rewrite decide_False by (intros Hn; apply Hn; exact I). done.
  - rewrite decide_True by (intros []). done.
Qed.

Lemma disconnect_each_failed (pre post : list WebSocket) :
  Forall ok pre ->
  disconnect_each (filter (fun c => ¬ ok c) post) (pre ++ post)
    = Ok (pre ++ filter ok post).
Proof.
  revert pre. induction post as [|c post IH]; intros pre Hpre.
  - done.
  - rewrite !filter_cons. destruct (decide (ok c)) as [Hc|Hc].
    + rewrite decide_False by tauto.
      rewrite (cons_middle c pre post), app_assoc. rewrite IH.
      * by rewrite <- app_assoc.
      * apply Forall_app. split; [done|]. by apply Forall_singleton.
    + rewrite decide_True by done. cbn [disconnect_each].
      rewrite disconnect_skip.
      * run_bind. by apply IH.
      * intros Hin. apply Hc. by eapply Forall_forall in Hpre.
Qed.


Lemma broadcast_spec (active : list WebSocket) :
  broadcast send_text message active
    = Ok (filter ok active, (fun c => (c, send_text c message)) <$> active).
Proof.
  unfold broadcast. rewrite send_to_each_spec.
  pose proof (disconnect_each_failed [] active (Forall_nil_2 _)) as Hd.
  cbn [app] in Hd. by rewrite Hd.
Qed.

End BroadcastFacts.

Section BroadcastClaims.
Import ConnectionManager.



(** The scenario of the specification with a write that raises. *)
Example broadcast_three_subscribers :
  broadcast broken_second "tick" [1; 2; 3]%nat
    = Ok ([1; 3]%nat, [(1, Sent 3); (2, SendRaised); (3, Sent 3)]%nat) /\
  broadcast broken_second "tock" [1; 3]%nat
    = Ok ([1; 3]%nat, [(1, Sent 3); (3, Sent 3)]%nat).
Proof. vm_compute. done. Qed.

End BroadcastClaims.

(** ** The client protocol *)

Section ProtocolClaims.
Import WebSocketEndpoint.

Lemma dispatch_dict (fields : list (string * json)) :
  dispatch (JDict fields) =
    Ok (if eq_str (lookup_last "type" fields) "subscribe"
        then [SubscriptionConfirmed
                (default (JList []) (lookup_last "symbols" fields))]
        else if eq_str (lookup_last "type" fields) "ping" then [Pong]
        else []).
Proof.
  unfold dispatch. cbn [get mbind result_bind bind].
  by repeat case_match.
Qed.

Lemma dispatch_other (v : json) :
  (forall fields, v <> JDict fields) ->
  dispatch v = Raise (AttributeError (type_name v)).
Proof.
  intros Hv. destruct v; try done. by destruct (Hv fields).
Qed.

(** The replies of the endpoint, case by case.  A decoded object whose
    [type] is [subscribe] is answered with [subscription_confirmed] and its
    symbols, one whose [type] is [ping] with [pong]; a text that is not JSON
    is answered with the error [Invalid JSON], and a JSON value that is not
    an object with an error too; an object with any other [type], or none,
    is not answered.  In every case the endpoint stays in its loop and the
    registry is untouched. *)
Theorem handle_text_replies (json_loads : string -> result json)
    (data : string) :
  (forall fields, json_loads data = Ok (JDict fields) ->
     (lookup_last "type" fields = Some (JStr "subscribe") ->
      handle_text json_loads data =
        [SubscriptionConfirmed
           (default (JList []) (lookup_last "symbols" fields))]) /\
     (lookup_last "type" fields = Some (JStr "ping") ->
      handle_text json_loads data = [Pong]) /\
     (eq_str (lookup_last "type" fields) "subscribe" = false ->
      eq_str (lookup_last "type" fields) "ping" = false ->
      handle_text json_loads data = [])) /\
  (json_loads data = Raise JSONDecodeError ->
   handle_text json_loads data = [ErrorFrame "Invalid JSON"]) /\
  (forall v, json_loads data = Ok v -> (forall fields, v <> JDict fields) ->
   handle_text json_loads data =
     [ErrorFrame ("'" +:+ type_name v +:+ "' object has no attribute 'get'")]) /\
  (forall (WebSocket : Type) (EqWs : EqDecision WebSocket)
          (websocket : WebSocket) (s : session),
     open s = true ->
     let s' := step json_loads websocket (Text data) s in
     open s' = true /\
     active_connections s' = active_connections s /\
     outbox s' = outbox s ++ handle_text json_loads data).
Proof.
  split_and!.
  - intros fields Hload. unfold handle_text. rewrite Hload.
    run_bind. rewrite dispatch_dict.
    split_and!.
    + intros ->. done.
    + intros ->. done.
    + intros -> ->. done.
  - intros Hload. unfold handle_text. by rewrite Hload.
  - intros v Hload Hv. unfold handle_text. rewrite Hload.
    run_bind. by rewrite dispatch_other.
  - intros WebSocket EqWs websocket s Hopen. unfold step. by rewrite Hopen.
Qed.

Lemma handle_text_replies_witness :
  handle_text loads_examples (typed_text "ping") = [Pong] /\
  handle_text loads_examples "Hello WebSocket!" = [ErrorFrame "Invalid JSON"] /\
  handle_text loads_examples "[1, 2]" =
    [ErrorFrame "'list' object has no attribute 'get'"].
Proof.
  split_and!.
  - apply (handle_text_replies loads_examples (typed_text "ping"))
      with (fields := [("type", JStr "ping")]); reflexivity.
  - apply (handle_text_replies loads_examples "Hello WebSocket!"). reflexivity.
  - apply (handle_text_replies loads_examples "[1, 2]")
      with (v := JList [JInt 1; JInt 2]); [reflexivity | discriminate].
Defined.

(** C8. A subscribe message is answered with [subscription_confirmed], a
    ping with [pong], and a malformed or unrecognized payload with an error
    reply.  The endpoint misses the last case: an object whose [type] is
    neither [subscribe] nor [ping], or an empty object, falls through the
    [if]/[elif] and gets no reply at all, while a text that is not JSON and a
    JSON value that is not an object do get their error reply. *)
Lemma unrecognized_message_unanswered :
  loads_examples (typed_text "unsubscribe")
    = Ok (JDict [("type", JStr "unsubscribe")]) /\
  handle_text loads_examples (typed_text "unsubscribe") = [] /\
  handle_text loads_examples "{}" = [] /\
  handle_text loads_examples "Hello WebSocket!" = [ErrorFrame "Invalid JSON"] /\
  handle_text loads_examples "[1, 2]"
    = [ErrorFrame "'list' object has no attribute 'get'"].
Proof. vm_compute. done. Qed.

(** Whatever texts arrive, the endpoint is still in its loop after them. *)
Lemma serve_texts_stays_open (json_loads : string -> result json)
    `{EqDecision WebSocket} (websocket : WebSocket)
    (texts : list string) (s : session) :
  open s = true ->
  open (serve json_loads websocket (Text <$> texts) s) = true /\
  active_connections (serve json_loads websocket (Text <$> texts) s)
    = active_connections s.
Proof.
  revert s. induction texts as [|data texts IH]; intros s Hopen; [done|].
  cbn [fmap list_fmap serve fold_left].
  destruct (IH (step json_loads websocket (Text data) s)) as [H1 H2].
  - unfold step. by rewrite Hopen.
  - unfold serve in *. rewrite H1, H2. split; [done|].
    unfold step. by rewrite Hopen.
Qed.

End ProtocolClaims.

(** ** The price cache *)

Section CacheFacts.
Import Upstream RealtimeBackend.
Local Open Scope Q_scope.

Lemma fetch_quote_raised (symbol : string) (c : call) (e : exn) :
  history c = Raise e -> fetch_quote symbol c = None.
Proof. intros H. unfold fetch_quote. by rewrite H. Qed.

Lemma fetch_quote_short (symbol : string) (c : call) (hist : frame) :
  history c = Ok hist -> (length (rows hist) < 2)%nat ->
  fetch_quote symbol c = None.
Proof.
  intros H Hlen. unfold fetch_quote. rewrite H.
  run_bind. by rewrite bool_decide_eq_false_2 by lia.
Qed.

Lemma get_hit (symbol : string) (c : call) (st : state) (q : MarketPrice.t) :
  cache_hit (price_cache st) ("yf_" +:+ symbol) (time_at_check c) = Some q ->
  get_yahoo_finance_data symbol c st = (Some q, st).
Proof. intros H. unfold get_yahoo_finance_data. by rewrite H. Qed.

Lemma get_miss_failed (symbol : string) (c : call) (st : state) :
  cache_hit (price_cache st) ("yf_" +:+ symbol) (time_at_check c) = None ->
  fetch_quote symbol c = None ->
  get_yahoo_finance_data symbol c st =
    (None, {| price_cache := price_cache st;
              upstream_calls := symbol :: upstream_calls st |}).
Proof. intros H1 H2. unfold get_yahoo_finance_data. by rewrite H1, H2. Qed.

Lemma get_miss_fetched (symbol : string) (c : call) (st : state)
    (q : MarketPrice.t) :
  cache_hit (price_cache st) ("yf_" +:+ symbol) (time_at_check c) = None ->
  fetch_quote symbol c = Some q ->
  get_yahoo_finance_data symbol c st =
    (Some q,
     {| price_cache :=
          <["yf_" +:+ symbol := {| data := q; stored_at := time_at_store c |}]>
            (price_cache st);
        upstream_calls := symbol :: upstream_calls st |}).
Proof. intros H1 H2. unfold get_yahoo_finance_data. by rewrite H1, H2. Qed.

(** An entry is live for the checks made less than [CACHE_DURATION] after
    it was stored. *)
Lemma cache_hit_live (cache : gmap string cache_entry) (key : string)
    (q : MarketPrice.t) (stored time : Q) :
  cache !! key = Some {| data := q; stored_at := stored |} ->
  time - stored < CACHE_DURATION ->
  cache_hit cache key time = Some q.
Proof.
  intros Hk Hlt. unfold cache_hit. rewrite Hk. cbn [stored_at data].
  apply Qltb_lt in Hlt. by rewrite Hlt.
Qed.

(** A quote the function returns is the live cache entry or the quote the
    upstream gave in this call. *)
Lemma get_returns_real_data (symbol : string) (c : call) (st : state)
    (q : MarketPrice.t) :
  (get_yahoo_finance_data symbol c st).1 = Some q ->
  cache_hit (price_cache st) ("yf_" +:+ symbol) (time_at_check c) = Some q \/
  fetch_quote symbol c = Some q.
Proof.
  unfold get_yahoo_finance_data.
  destruct (cache_hit _ _ _) as [hit|]; [by left|].
  destruct (fetch_quote symbol c) as [mp|]; [by right | done].
Qed.

(** While the entry stays live, calls return it and do not ask upstream. *)
Lemma get_each_live (symbol : string) (q : MarketPrice.t) (stored : Q)
    (calls : list call) (st : state) :
  price_cache st !! ("yf_" +:+ symbol)
    = Some {| data := q; stored_at := stored |} ->
  Forall (fun c => time_at_check c - stored < CACHE_DURATION) calls ->
  get_each symbol calls st = (replicate (length calls) (Some q), st).
Proof.
  intros Hk Hall. induction Hall as [|c calls Hc _ IH]; [done|].
  cbn [get_each].
  rewrite (get_hit symbol c st q) by (by eapply cache_hit_live).
  by rewrite IH.
Qed.

Lemma base_prices_nonzero (symbol : string) :
  ~ default 100 (EnhancedBackend.base_prices !! symbol) == 0.
Proof.
  destruct (EnhancedBackend.base_prices !! symbol) as [v|] eqn:E;
    cbn [default from_option id]; [|lra].
  unfold EnhancedBackend.base_prices in E.
  apply elem_of_list_to_map_2 in E.
  repeat (apply elem_of_cons in E as [E|E]; [injection E as _ ->; lra|]).
  by apply elem_of_nil in E.
Qed.

(** The simulated quote is always made, and says what it is. *)
Lemma get_simulated_price_ok (symbol : string)
    (d : EnhancedBackend.simulation) (now : Q) :
  exists q,
    EnhancedBackend.get_simulated_price symbol d now = Ok q /\
    MarketPrice.source q = "simulated".
Proof.
  unfold EnhancedBackend.get_simulated_price.
  rewrite div_ok by apply base_prices_nonzero.
  run_bind. eexists. split; reflexivity.
Qed.

End CacheFacts.

Section CacheClaims.
Import Upstream RealtimeBackend.
Local Open Scope Q_scope.

(** C4. With the 10 s lifetime: when a call on a cold entry fetches a quote
    and stores it, every call whose cache check comes less than 10 s after
    the store, in whatever number and order, returns that same quote, and
    the upstream was asked exactly once in all. *)
Theorem cached_quote_served_once (symbol : string) (first : call)
    (later : list call) (st : state) (q : MarketPrice.t) :
  cache_hit (price_cache st) ("yf_" +:+ symbol) (time_at_check first) = None ->
  fetch_quote symbol first = Some q ->
  Forall (fun c => time_at_check c - time_at_store first < 10) later ->
  exists st',
    get_each symbol (first :: later) st
      = (replicate (S (length later)) (Some q), st') /\
    upstream_calls st' = symbol :: upstream_calls st.
Proof.
  intros Hmiss Hfetch Hlater. cbn [get_each].
  rewrite (get_miss_fetched symbol first st q) by done.
  erewrite get_each_live; [| apply lookup_insert_eq | exact Hlater].
  eexists. split; reflexivity.
Qed.

Lemma cached_quote_served_once_witness :
  exists st',
    get_each "AAPL" [upstream_up 100; upstream_down 104; upstream_down 109] cold
      = (replicate 3 (Some aapl_quote), st') /\
    upstream_calls st' = ["AAPL"].
Proof.
  apply (cached_quote_served_once "AAPL" (upstream_up 100)
           [upstream_down 104; upstream_down 109] cold aapl_quote).
  - reflexivity.
  - vm_compute. reflexivity.
  - repeat constructor.
Defined.

(** Ten seconds after the store the entry is no longer live: the upstream
    is asked again. *)
Example expired_entry_refetched :
  upstream_calls (get_each "AAPL" [upstream_up 100; upstream_up 110] cold).2
    = ["AAPL"; "AAPL"] /\
  upstream_calls
    (get_each "AAPL" [upstream_up 100; upstream_up (1099 # 10)] cold).2
    = ["AAPL"].
Proof. vm_compute. done. Qed.

(** C2. When the upstream fetch of a call fails and the cache has no live
    entry for the symbol, [get_yahoo_finance_data] returns [None] and leaves
    the cache as it was, whether or not an expired entry is there: an
    expired entry is not served.  A quote it does return is the live cache
    entry or the one just fetched.  [get_market_price] of
    [enhanced_ai_trading_backend.py] returns, when both providers give
    nothing, the quote of [get_simulated_price], whose source reads
    [simulated]. *)
Theorem failed_fetch_returns_none :
  (forall symbol c st,
     fetch_quote symbol c = None ->
     cache_hit (price_cache st) ("yf_" +:+ symbol) (time_at_check c) = None ->
     get_yahoo_finance_data symbol c st =
       (None, {| price_cache := price_cache st;
                 upstream_calls := symbol :: upstream_calls st |})) /\
  (forall symbol c st q,
     (get_yahoo_finance_data symbol c st).1 = Some q ->
     cache_hit (price_cache st) ("yf_" +:+ symbol) (time_at_check c) = Some q \/
     fetch_quote symbol c = Some q) /\
  (forall (state : Type)
          (get_alpha_vantage_price get_yahoo_finance_price :
             string -> state -> option MarketPrice.t * state)
          symbol d now st,
     (get_alpha_vantage_price symbol st).1 = None ->
     (get_yahoo_finance_price symbol (get_alpha_vantage_price symbol st).2).1
       = None ->
     exists q,
       (EnhancedBackend.get_market_price get_alpha_vantage_price
          get_yahoo_finance_price symbol d now st).1 = Ok q /\
       EnhancedBackend.get_simulated_price symbol d now = Ok q /\
       MarketPrice.source q = "simulated").
Proof.
  split_and!.
  - intros symbol c st Hfail Hmiss. by apply get_miss_failed.
  - intros symbol c st q. apply get_returns_real_data.
  - intros state av yf symbol d now st Hav Hyf.
    destruct (get_simulated_price_ok symbol d now) as (q & Hq & Hsrc).
    exists q. split; [|done].
    unfold EnhancedBackend.get_market_price.
    destruct (av symbol st) as [[?|] st1]; [done|]. cbn [fst snd] in Hyf.
    destruct (yf symbol st1) as [[?|] st2]; [done|]. done.
Qed.

Lemma failed_fetch_returns_none_witness :
  (get_yahoo_finance_data "AAPL" (upstream_down 200) aapl_cached).1 = None.
Proof.
  destruct failed_fetch_returns_none as [H _].
  rewrite (H "AAPL" (upstream_down 200) aapl_cached);
    reflexivity.
Defined.

(** C2, as stated, fails: with a quote of AAPL cached 100 s ago and the
    upstream down, the call returns [None], not the cached quote. *)
Lemma stale_entry_not_served :
  price_cache aapl_cached !! "yf_AAPL"
    = Some {| data := aapl_quote; stored_at := 100 |} /\
  fetch_quote "AAPL" (upstream_down 200) = None /\
  (get_yahoo_finance_data "AAPL" (upstream_down 200) aapl_cached).1 = None.
Proof. vm_compute. done. Qed.

End CacheClaims.

(** ** The indicator services *)

Section IndicatorClaims.
Import Upstream.
Local Open Scope Q_scope.

(** C3. With fewer than 50 bars, which is the longest indicator period of
    the default settings, [MarketDataService.get_technical_indicators]
    raises the explicit insufficient-data error, whatever the settings;
    [get_technical_indicators] of [realtime_ai_backend.py] returns the
    simulated indicators instead, made of its four random draws. *)
Theorem short_history_indicators (symbol : string) (hist : frame) :
  (length (rows hist) < 50)%nat ->
  (forall settings rsi_series ewm_mean rolling_mean rolling_std,
     MarketDataService.get_technical_indicators
       settings rsi_series ewm_mean rolling_mean rolling_std symbol (Ok hist)
     = Raise MarketDataService.insufficient_data) /\
  MarketDataService.longest_period Config.defaults = 50%Z /\
  (forall calculate_rsi calculate_macd rolling_mean_last d now,
     RealtimeBackend.get_technical_indicators
       calculate_rsi calculate_macd rolling_mean_last symbol (Ok hist) d now
     = RealtimeBackend.simulated_indicators symbol d now).
Proof.
  intros Hlen. split_and!.
  - intros. unfold MarketDataService.get_technical_indicators.
    run_bind. unfold MarketDataService.MIN_BARS.
    by rewrite bool_decide_eq_true_2.
  - reflexivity.
  - intros. unfold RealtimeBackend.get_technical_indicators.
    run_bind. by rewrite bool_decide_eq_false_2 by lia.
Qed.

Lemma short_history_indicators_witness :
  (length (rows RealtimeBackend.ten_bars) < 50)%nat /\
  RealtimeBackend.get_technical_indicators
    RealtimeBackend.not_run RealtimeBackend.not_run
    (fun _ => RealtimeBackend.not_run) "AAPL"
    (Ok RealtimeBackend.ten_bars) RealtimeBackend.some_draws 7
  = RealtimeBackend.simulated_indicators "AAPL" RealtimeBackend.some_draws 7.
Proof.
  split; [vm_compute; lia|].
  apply (short_history_indicators "AAPL" RealtimeBackend.ten_bars).
  vm_compute; lia.
Defined.

(** C3, as stated, fails in [realtime_ai_backend.py]: on ten bars the
    result is a full set of indicators, whose RSI is the random draw. *)
Lemma short_history_indicators_simulated :
  length (rows RealtimeBackend.ten_bars) = 10%nat /\
  RealtimeBackend.get_technical_indicators
    RealtimeBackend.not_run RealtimeBackend.not_run
    (fun _ => RealtimeBackend.not_run) "AAPL"
    (Ok RealtimeBackend.ten_bars) RealtimeBackend.some_draws 7
  = {| RealtimeBackend.TechnicalIndicators.symbol := "AAPL";
       RealtimeBackend.TechnicalIndicators.rsi := 42.5;
       RealtimeBackend.TechnicalIndicators.macd := 0.3;
       RealtimeBackend.TechnicalIndicators.sma_20 := 171;
       RealtimeBackend.TechnicalIndicators.sma_50 := 163;
       RealtimeBackend.TechnicalIndicators.timestamp := 7 |}.
Proof. vm_compute. done. Qed.

(** An error of the upstream is a fallback too in [realtime_ai_backend.py],
    and is raised again by the service. *)
Lemma upstream_error_indicators (symbol : string) (e : exn) :
  (forall settings rsi_series ewm_mean rolling_mean rolling_std,
     MarketDataService.get_technical_indicators
       settings rsi_series ewm_mean rolling_mean rolling_std symbol (Raise e)
     = Raise e) /\
  (forall calculate_rsi calculate_macd rolling_mean_last d now,
     RealtimeBackend.get_technical_indicators
       calculate_rsi calculate_macd rolling_mean_last symbol (Raise e) d now
     = RealtimeBackend.simulated_indicators symbol d now).
Proof. done. Qed.

End IndicatorClaims.

(** ** The decision engines *)

Section DecisionFacts.
Local Open Scope Q_scope.



(** The confidence of a side that won with [n] votes. *)
Lemma winner_confidence_bounds (n : Z) :
  (0 <= n)%Z -> 0 <= Py.min 0.95 (0.6 + inject_Z n * 0.1) <= 1.
Proof.
  intros Hn.
  assert (0 <= inject_Z n) by (change 0 with (inject_Z 0); by rewrite <- Zle_Qle).
  unfold Py.min. destruct (Qltb _ _) eqn:E.
  - apply Qltb_lt in E. lra.
  - lra.
Qed.

Lemma enhanced_score_nonneg (p : EnhancedBackend.MarketPrice.t)
    (ti : EnhancedBackend.TechnicalIndicators.t) :
  (0 <= EnhancedBackend.buy_score (EnhancedBackend.score p ti))%Z /\
  (0 <= EnhancedBackend.sell_score (EnhancedBackend.score p ti))%Z.
Proof.
  unfold EnhancedBackend.score, EnhancedBackend.moving_average_analysis,
    EnhancedBackend.price_momentum, EnhancedBackend.macd_analysis,
    EnhancedBackend.rsi_analysis.
  repeat case_match; cbn; lia.
Qed.

Lemma complete_score_nonneg (p : RealtimeBackend.MarketPrice.t) (rsi : Q) :
  (0 <= CompleteBackend.buy_signals (CompleteBackend.score p rsi))%Z /\
  (0 <= CompleteBackend.sell_signals (CompleteBackend.score p rsi))%Z.
Proof.
  unfold CompleteBackend.score, CompleteBackend.random_rsi,
    CompleteBackend.price_momentum.
  repeat case_match; cbn; lia.
Qed.

Lemma confidence_factors_nonneg (a : TradingAI.analysis_t) :
  Forall (Qle 0) (TradingAI.confidence_factors a).
Proof.
  unfold TradingAI.confidence_factors.
  repeat (apply Forall_app; split);
    case_match; repeat constructor; lra.
Qed.

Lemma risk_adjust_bounds (volatility base : Q) :
  0 <= base <= 1 -> 0 <= TradingAI.risk_adjust volatility base <= 1.
Proof.
  intros [H0 H1]. unfold TradingAI.risk_adjust.
  repeat case_match; lra.
Qed.

Lemma clamp_unit_id (x : Q) :
  0 <= x <= 1 -> Py.min (Py.max x 0.0) 1.0 = x.
Proof.
  intros [H0 H1]. unfold Py.min, Py.max.
  destruct (Qltb x 0.0) eqn:E1.
  { apply Qltb_lt in E1. lra. }
  destruct (Qltb 1.0 x) eqn:E2; [|done].
  apply Qltb_lt in E2. lra.
Qed.

End DecisionFacts.

Section DecisionClaims.
Local Open Scope Q_scope.

(** C6. The confidence [_calculate_confidence] returns is the sum of the
    matched factor weights capped at 1, multiplied by 0.7 when the annualized
    volatility is above 40, by 0.85 when it is above 25, left as it is
    otherwise, and rounded to three decimals; it lies between 0 and 1.  So
    does the confidence of every signal of the flat backends and of every
    decision of [make_trading_decision]. *)
Theorem confidence_in_unit_interval :
  (forall a : TradingAI.analysis_t,
     let base := Py.min (Py.sum (TradingAI.confidence_factors a)) 1.0 in
     let v := default 20 (TradingAI.volatility a) in
     0 <= base <= 1 /\
     (40 < v -> TradingAI._calculate_confidence a = Py.round (base * 0.7) 3) /\
     (v <= 40 -> 25 < v ->
      TradingAI._calculate_confidence a = Py.round (base * 0.85) 3) /\
     (v <= 25 -> TradingAI._calculate_confidence a = Py.round base 3) /\
     0 <= TradingAI._calculate_confidence a <= 1) /\
  (forall settings a d,
     TradingAI.make_trading_decision settings a = Ok d ->
     0 <= TradingAI.confidence d <= 1) /\
  (forall symbol p ti draw now,
     0 <= EnhancedBackend.TradeSignal.confidence
            (EnhancedBackend.generate_ai_signal_with_analysis
               symbol p ti draw now) <= 1) /\
  (forall symbol c rsi draw now st,
     0 <= CompleteBackend.TradeSignal.confidence
            (CompleteBackend.generate_ai_signal symbol c rsi draw now st).1
       <= 1).
Proof.
  assert (Hconf : forall a : TradingAI.analysis_t,
     let base := Py.min (Py.sum (TradingAI.confidence_factors a)) 1.0 in
     let v := default 20 (TradingAI.volatility a) in
     0 <= base <= 1 /\
     TradingAI._calculate_confidence a
       = Py.round (TradingAI.risk_adjust v base) 3 /\
     0 <= TradingAI._calculate_confidence a <= 1).
  { intros a base v.
    assert (Hbase : 0 <= base <= 1).
    { pose proof (sum_nonneg _ (confidence_factors_nonneg a)) as Hsum.
      destruct (min_bounds (Py.sum (TradingAI.confidence_factors a)) 1.0 0)
        as [Hlo Hhi]; [done | lra |].
      fold base in Hlo, Hhi. lra. }
    pose proof (risk_adjust_bounds v base Hbase) as Hadj.
    assert (Heq : TradingAI._calculate_confidence a
                  = Py.round (TradingAI.risk_adjust v base) 3).
    { unfold TradingAI._calculate_confidence. fold base. fold v.
      by rewrite clamp_unit_id by exact Hadj. }
    split; [exact Hbase|]. split; [exact Heq|].
    rewrite Heq. by apply round_unit_interval. }
  split_and!.
  - intros a base v. destruct (Hconf a) as (Hbase & Heq & Hrange).
    fold base in Hbase, Heq. fold v in Heq.
    split; [exact Hbase|]. split_and!; [| | | apply Hrange..].
    + intros Hv. rewrite Heq. unfold TradingAI.risk_adjust.
      apply Qltb_lt in Hv. by rewrite Hv.
    + intros Hv1 Hv2. rewrite Heq. unfold TradingAI.risk_adjust.
      apply Qltb_ge in Hv1. apply Qltb_lt in Hv2. by rewrite Hv1, Hv2.
    + intros Hv. rewrite Heq. unfold TradingAI.risk_adjust.
      assert (Hv1 : Qltb 40 v = false) by (apply Qltb_ge; lra).
      apply Qltb_ge in Hv. by rewrite Hv1, Hv.
  - intros settings a d Hd. unfold TradingAI.make_trading_decision in Hd.
    destruct (TradingAI._make_decision settings a _) as [dec|e];
      cbn [mbind result_bind bind] in Hd; [|done].
    injection Hd as <-. cbn [TradingAI.confidence]. apply Hconf.
  - intros symbol p ti draw now.
    unfold EnhancedBackend.generate_ai_signal_with_analysis,
      EnhancedBackend.determine.
    destruct (enhanced_score_nonneg p ti) as [Hb Hs].
    repeat case_match; simplify_eq; cbn [EnhancedBackend.TradeSignal.confidence];
      try (by apply winner_confidence_bounds); lra.
  - intros symbol c rsi draw now st.
    unfold CompleteBackend.generate_ai_signal.
    destruct (CompleteBackend.get_yahoo_finance_data symbol c st) as [[p|] st'];
      cbn [fst CompleteBackend.TradeSignal.confidence]; [|lra].
    unfold CompleteBackend.determine.
    destruct (complete_score_nonneg p rsi) as [Hb Hs].
    repeat case_match; simplify_eq;
      cbn [fst CompleteBackend.TradeSignal.confidence];
      apply round_unit_interval;
      try (by apply winner_confidence_bounds); lra.
Qed.

Lemma confidence_in_unit_interval_witness :
  40 < default 20 (TradingAI.volatility TradingAI.volatile_oversold) /\
  TradingAI._calculate_confidence TradingAI.volatile_oversold
    = Py.round (Py.min (Py.sum (TradingAI.confidence_factors
                                  TradingAI.volatile_oversold)) 1.0 * 0.7) 3 /\
  Py.round (Py.min (Py.sum (TradingAI.confidence_factors
                              TradingAI.volatile_oversold)) 1.0 * 0.7) 3
    == 0.35.
Proof.
  destruct confidence_in_unit_interval as [H _].
  destruct (H TradingAI.volatile_oversold) as (_ & Hhigh & _).
  split; [reflexivity|]. split; [apply Hhigh; reflexivity | reflexivity].
Defined.




End DecisionClaims.

(** * Further properties of the code *)

(** ** Rounding *)

Section RoundFacts.
Local Open Scope Q_scope.

Lemma round_half_even_mono (x y : Q) :
  x <= y -> (round_half_even x <= round_half_even y)%Z.
Proof.
  intros Hxy.
  pose proof (Qfloor_resp_le x y Hxy) as Hf.
  pose proof (Qfloor_le x) as Hx1. pose proof (Qlt_floor x) as Hx2.
  pose proof (Qfloor_le y) as Hy1. pose proof (Qlt_floor y) as Hy2.
  rewrite inject_Z_plus in Hx2, Hy2.
  unfold round_half_even.
  destruct (Z.eq_dec (Qfloor x) (Qfloor y)) as [Heq|Hne].
  - rewrite <- Heq in *.
    destruct (Qltb (x - inject_Z (Qfloor x)) (1 # 2)) eqn:E1;
    destruct (Qltb (y - inject_Z (Qfloor x)) (1 # 2)) eqn:E2;
    destruct (Qltb (1 # 2) (x - inject_Z (Qfloor x))) eqn:E3;
    destruct (Qltb (1 # 2) (y - inject_Z (Qfloor x))) eqn:E4;
    destruct (Z.even (Qfloor x)); try lia;
    repeat match goal with
           | H : Qltb _ _ = true |- _ => apply Qltb_lt in H
           | H : Qltb _ _ = false |- _ => apply Qltb_ge in H
           end; exfalso; lra.
  - assert (Hlt : (Qfloor x + 1 <= Qfloor y)%Z) by lia.
    repeat case_match; lia.
Qed.

Lemma round_half_even_Qeq (x y : Q) :
  x == y -> round_half_even x = round_half_even y.
Proof.
  intros Heq. apply Z.le_antisymm; apply round_half_even_mono; lra.
Qed.

(** [round] is monotone, and gives equal values on equal rationals. *)
Lemma round_mono (x y : Q) (n : nat) :
  x <= y -> Py.round x n <= Py.round y n.
Proof.
  intros Hxy. unfold Py.round. pose proof (pow10_pos n) as Hs.
  set (scale := inject_Z (10 ^ Z.of_nat n)) in *.
  assert (Hr : (round_half_even (x * scale) <= round_half_even (y * scale))%Z).
  { apply round_half_even_mono. nra. }
  rewrite Zle_Qle in Hr.
  apply Qle_shift_div_l; [done|].
  assert (Hd : inject_Z (round_half_even (x * scale)) / scale * scale
               == inject_Z (round_half_even (x * scale))) by (field; lra).
  rewrite Hd. exact Hr.
Qed.

Lemma round_Qeq (x y : Q) (n : nat) :
  x == y -> Py.round x n = Py.round y n.
Proof.
  intros Heq. unfold Py.round.
  set (scale := inject_Z (10 ^ Z.of_nat n)).
  rewrite (round_half_even_Qeq (x * scale) (y * scale)); [done|].
  by rewrite Heq.
Qed.

(** An integer is rounded to itself. *)
Lemma round_half_even_Z (z : Z) : round_half_even (inject_Z z) = z.
Proof.
  unfold round_half_even. rewrite Qfloor_Z.
  replace (Qltb (inject_Z z - inject_Z z) (1 # 2)) with true; [done|].
  symmetry. apply Qltb_lt. lra.
Qed.

(** A bound with at most [n] decimals is kept by [round(x, n)]. *)
Lemma round_le (x c : Q) (n : nat) (k : Z) :
  c == inject_Z k / inject_Z (10 ^ Z.of_nat n) ->
  x <= c -> Py.round x n <= c.
Proof.
  intros Hc Hx. pose proof (pow10_pos n) as Hs.
  assert (Hk : Py.round c n == c).
  { unfold Py.round.
    rewrite (round_half_even_Qeq _ (inject_Z k)).
    - rewrite round_half_even_Z. by symmetry.
    - rewrite Hc. field. lra. }
  rewrite <- Hk. by apply round_mono.
Qed.

Lemma round_ge (x c : Q) (n : nat) (k : Z) :
  c == inject_Z k / inject_Z (10 ^ Z.of_nat n) ->
  c <= x -> c <= Py.round x n.
Proof.
  intros Hc Hx. pose proof (pow10_pos n) as Hs.
  assert (Hk : Py.round c n == c).
  { unfold Py.round.
    rewrite (round_half_even_Qeq _ (inject_Z k)).
    - rewrite round_half_even_Z. by symmetry.
    - rewrite Hc. field. lra. }
  rewrite <- Hk. by apply round_mono.
Qed.

End RoundFacts.

(** ** Registry and endpoint *)

Section RegistryMore.
Import ConnectionManager WebSocketEndpoint.

(** X1. A connection that was not registered is gone without a trace after
    [connect] and [disconnect]: the registry is the one before. *)
Theorem connect_disconnect_round_trip `{EqDecision WebSocket}
    (websocket : WebSocket) (active : list WebSocket) :
  websocket ∉ active ->
  connect (Ok ()) websocket active ≫= disconnect websocket = Ok active.
Proof.
  intros Hnot. unfold connect. run_bind.
  rewrite disconnect_skip by done. by rewrite app_nil_r.
Qed.

Lemma connect_disconnect_round_trip_witness :
  (4%nat ∉ [1; 2; 3]%nat) /\
  connect (Ok ()) 4%nat [1; 2; 3]%nat ≫= disconnect 4%nat
    = Ok [1; 2; 3]%nat.
Proof.
  assert (H : 4%nat ∉ [1; 2; 3]%nat).
  { apply (bool_decide_unpack _). vm_compute. exact I. }
  split; [exact H|].
  apply (connect_disconnect_round_trip 4%nat [1; 2; 3]%nat H).
Defined.

Lemma filter_delivered_twice `{EqDecision WebSocket}
    (send_text : WebSocket -> string -> send_outcome) (message : string)
    (l : list WebSocket) :
  filter (fun c => Is_true (delivered (send_text c message)))
    (filter (fun c => Is_true (delivered (send_text c message))) l)
  = filter (fun c => Is_true (delivered (send_text c message))) l.
Proof.
  induction l as [|c l IH]; [done|].
  rewrite filter_cons. case_decide as Hc; [|done].
  rewrite filter_cons, decide_True by done. by rewrite IH.
Qed.

(** X2. [broadcast] never raises; the registry it leaves is the old one
    with some connections taken out, in the old order and without new
    duplicates; and the same message broadcast again, with the writes
    behaving the same, evicts nobody. *)
Theorem broadcast_only_removes `{EqDecision WebSocket}
    (send_text : WebSocket -> string -> send_outcome) (message : string)
    (active : list WebSocket) :
  exists remaining attempts,
    broadcast send_text message active = Ok (remaining, attempts) /\
    remaining `sublist_of` active /\
    (NoDup active -> NoDup remaining) /\
    (length remaining <= length active)%nat /\
    exists attempts',
      broadcast send_text message remaining = Ok (remaining, attempts').
Proof.
  do 2 eexists. split; [apply broadcast_spec|].
  split; [apply sublist_filter|].
  split; [apply NoDup_filter|].
  split; [apply length_filter|].
  eexists. rewrite broadcast_spec. by rewrite filter_delivered_twice.
Qed.

(** X3. One client that was not registered connects, sends texts and goes:
    the endpoint has left its loop, the registry is the one before the
    client came, the frames written are the replies to its texts in order
    and nothing that arrives after the disconnect is handled; the market
    data stream was started exactly when the registry was empty. *)
Theorem endpoint_session `{EqDecision WebSocket}
    (json_loads : string -> result json) (websocket : WebSocket)
    (texts : list string) (later : list received) (active : list WebSocket) :
  websocket ∉ active ->
  exists s,
    Endpoint.websocket_endpoint json_loads (Ok ()) websocket
      ((Text <$> texts) ++ WebSocketDisconnect :: later) active
      = Ok (s, bool_decide (active = [])) /\
    open s = false /\
    active_connections s = active /\
    outbox s = concat (handle_text json_loads <$> texts).
Proof.
  intros Hnot. unfold Endpoint.websocket_endpoint, connect. run_bind.
  assert (Hserve : forall s0 : session,
    open s0 = true -> active_connections s0 = active ++ [websocket] ->
    let s := serve json_loads websocket
               ((Text <$> texts) ++ WebSocketDisconnect :: later) s0 in
    open s = false /\ active_connections s = active /\
    outbox s = outbox s0 ++ concat (handle_text json_loads <$> texts)).
  { induction texts as [|data texts IH]; intros s0 Hopen Hact.
    - cbn [fmap list_fmap app concat]. unfold serve. cbn [fold_left].
      assert (Hstep : step json_loads websocket WebSocketDisconnect s0
                      = {| open := false; active_connections := active;
                           outbox := outbox s0 |}).
      { unfold step. rewrite Hopen, Hact, disconnect_skip by done.
        by rewrite app_nil_r. }
      rewrite Hstep. clear Hstep.
      assert (Hclosed : forall l (s : session),
                open s = false ->
                fold_left (fun s r => step json_loads websocket r s) l s = s).
      { induction l as [|r l IHl]; intros s Hs; [done|].
        cbn [fold_left]. unfold step at 2. rewrite Hs. by apply IHl. }
      rewrite Hclosed by done. cbn. by rewrite app_nil_r.
    - cbn [fmap list_fmap app]. unfold serve. cbn [fold_left].
      fold (serve json_loads websocket
              ((Text <$> texts) ++ WebSocketDisconnect :: later)
              (step json_loads websocket (Text data) s0)).
      destruct (IH (step json_loads websocket (Text data) s0))
        as (H1 & H2 & H3).
      + unfold step. by rewrite Hopen.
      + unfold step. by rewrite Hopen.
      + split; [done|]. split; [done|]. rewrite H3.
        unfold step. rewrite Hopen. cbn [outbox concat].
        by rewrite <- app_assoc. }
  destruct (Hserve {| open := true;
                      active_connections := active ++ [websocket];
                      outbox := [] |}) as (H1 & H2 & H3); [done..|].
  eexists. split; [|split; [exact H1|split; [exact H2|exact H3]]].
  f_equal. f_equal. rewrite length_app. cbn [length].
  destruct active; cbn [length]; [done|].
  rewrite !bool_decide_eq_false_2; [done | discriminate | lia].
Qed.

Lemma endpoint_session_witness :
  exists s,
    Endpoint.websocket_endpoint loads_examples (Ok ()) 4%nat
      ((Text <$> [typed_text "ping"; "{}"]) ++ [WebSocketDisconnect])
      ([] : list nat)
      = Ok (s, bool_decide ([] = ([] : list nat))) /\
    open s = false /\
    active_connections s = [] /\
    outbox s = concat (handle_text loads_examples <$> [typed_text "ping"; "{}"]).
Proof.
  apply (endpoint_session loads_examples 4%nat [typed_text "ping"; "{}"] [] []).
  apply not_elem_of_nil.
Defined.

End RegistryMore.

(** ** The price cache, symbol by symbol *)

Section CacheMore.
Import Upstream RealtimeBackend.
Local Open Scope Q_scope.

Lemma cache_key_inj (s1 s2 : string) :
  "yf_" +:+ s1 = "yf_" +:+ s2 -> s1 = s2.
Proof. cbn. intros H. by injection H. Qed.

(** The cache after a call: the entry of the symbol may be new, every other
    entry is the old one. *)
Lemma get_cache_after (symbol : string) (c : call) (st : state) (k : string) :
  price_cache (get_yahoo_finance_data symbol c st).2 !! k
    = price_cache st !! k \/
  (k = "yf_" +:+ symbol /\
   exists q, fetch_quote symbol c = Some q /\
     price_cache (get_yahoo_finance_data symbol c st).2 !! k
       = Some {| data := q; stored_at := time_at_store c |}).
Proof.
  unfold get_yahoo_finance_data.
  destruct (cache_hit _ _ _); [by left|].
  destruct (fetch_quote symbol c) as [q|] eqn:E; [|by left].
  cbn [snd price_cache].
  destruct (decide (k = "yf_" +:+ symbol)) as [->|Hne].
  - right. split; [done|]. exists q. split; [done|]. apply lookup_insert_eq.
  - left. by apply lookup_insert_ne.
Qed.

Lemma get_result_own_key (symbol : string) (c : call) (st st' : state) :
  price_cache st !! ("yf_" +:+ symbol) = price_cache st' !! ("yf_" +:+ symbol) ->
  (get_yahoo_finance_data symbol c st).1
    = (get_yahoo_finance_data symbol c st').1.
Proof.
  intros Hk. unfold get_yahoo_finance_data, cache_hit. rewrite Hk.
  repeat case_match; done.
Qed.

Lemma get_other_key (symbol : string) (c : call) (st : state) (k : string) :
  k <> "yf_" +:+ symbol ->
  price_cache (get_yahoo_finance_data symbol c st).2 !! k
    = price_cache st !! k.
Proof.
  intros Hk. by destruct (get_cache_after symbol c st k) as [H|(? & _)].
Qed.

(** X4. A call for one symbol leaves the entries of all other symbols as
    they were and removes no entry: whatever was cached stays cached. *)
Theorem get_touches_own_entry_only (symbol : string) (c : call) (st : state)
    (k : string) :
  (k <> "yf_" +:+ symbol ->
   price_cache (get_yahoo_finance_data symbol c st).2 !! k
     = price_cache st !! k) /\
  (is_Some (price_cache st !! k) ->
   is_Some (price_cache (get_yahoo_finance_data symbol c st).2 !! k)).
Proof.
  destruct (get_cache_after symbol c st k) as [H|(Hk & q & _ & H)].
  - rewrite H. done.
  - split; [done|]. rewrite H. by eexists.
Qed.

Lemma get_touches_own_entry_only_witness :
  price_cache (get_yahoo_finance_data "MSFT" (upstream_up 200) aapl_cached).2
    !! "yf_AAPL" = price_cache aapl_cached !! "yf_AAPL".
Proof.
  apply (get_touches_own_entry_only "MSFT" (upstream_up 200) aapl_cached
           "yf_AAPL").
  discriminate.
Defined.

(** X5. What a call for one symbol returns does not depend on the calls
    made before it for other symbols, whether they hit the cache, fetched or
    failed. *)
Theorem get_independent_of_other_symbols (s1 s2 : string) (c1 c2 : call)
    (st : state) :
  s1 <> s2 ->
  (get_yahoo_finance_data s2 c2 (get_yahoo_finance_data s1 c1 st).2).1
    = (get_yahoo_finance_data s2 c2 st).1.
Proof.
  intros Hne. apply get_result_own_key.
  apply get_other_key.
  intros Heq. apply Hne. symmetry. by apply cache_key_inj.
Qed.

Lemma get_independent_of_other_symbols_witness :
  "MSFT" <> "AAPL" /\
  (get_yahoo_finance_data "AAPL" (upstream_up 105)
     (get_yahoo_finance_data "MSFT" (upstream_down 100) cold).2).1
    = (get_yahoo_finance_data "AAPL" (upstream_up 105) cold).1.
Proof.
  split; [discriminate|].
  apply (get_independent_of_other_symbols "MSFT" "AAPL"). discriminate.
Defined.

Lemma iloc_neg_ok {A : Type} (k : nat) (l : list A) :
  (1 <= k <= length l)%nat -> exists a, iloc_neg k l = Ok a.
Proof.
  intros Hk. unfold iloc_neg.
  destruct (lookup_lt_is_Some_2 (rev l) (k - 1)) as [a Ha].
  - rewrite length_rev. lia.
  - rewrite Ha. by eexists.
Qed.

(** X6. The only failures of a fetch: the upstream raises, the frame has
    fewer than two rows, or the close before the last is zero.  Every other
    answer of the upstream gives a quote. *)
Theorem fetch_quote_fails_iff (symbol : string) (c : call) :
  fetch_quote symbol c = None <->
  (exists e, history c = Raise e) \/
  (exists hist, history c = Ok hist /\
     ((length (rows hist) < 2)%nat \/
      exists previous, iloc_neg 2 (closes hist) = Ok previous /\
                       previous == 0)).
Proof.
  unfold fetch_quote. destruct (history c) as [hist|e] eqn:Hh; run_bind.
  2:{ split; [intros _; left; by eexists | done]. }
  destruct (decide (2 <= length (rows hist))%nat) as [Hlen|Hlen].
  2:{ rewrite bool_decide_eq_false_2 by done.
      split; [|done]. intros _. right. exists hist. split; [done|].
      left. lia. }
  rewrite bool_decide_eq_true_2 by done.
  assert (Hc : length (closes hist) = length (rows hist))
    by apply length_fmap.
  assert (Hv : length (volumes hist) = length (rows hist))
    by apply length_fmap.
  destruct (iloc_neg_ok 1 (closes hist)) as [cur Hcur]; [lia|].
  destruct (iloc_neg_ok 2 (closes hist)) as [prev Hprev]; [lia|].
  destruct (iloc_neg_ok 1 (volumes hist)) as [vol Hvol]; [lia|].
  unfold quote_of. rewrite Hcur, Hprev. run_bind. unfold Py.div.
  destruct (Qeq_bool prev 0) eqn:E; run_bind.
  - split; [|done]. intros _. right. exists hist. split; [done|]. right.
    exists prev. split; [done|]. by apply Qeq_bool_iff.
  - apply Qeq_bool_false in E. rewrite Hvol.
    split.
    + destruct (has_volume hist); run_bind; discriminate.
    + intros [[e He]|(hist' & Hh' & [Hshort|(p & Hp & Hz)])].
      * discriminate.
      * injection Hh' as <-. lia.
      * injection Hh' as <-. rewrite Hprev in Hp. injection Hp as <-.
        by destruct E.
Qed.

End CacheMore.

(** ** The loops of the live price updater *)

Section UpdaterMore.
Import RealtimeBackend LivePriceUpdater.
Local Open Scope Q_scope.

Lemma collect_prices_lookup (symbols : list string) (calls : string -> call)
    (updates : gmap string MarketPrice.t) (st : state) (x : string) :
  NoDup symbols ->
  (collect_prices symbols calls updates st).1 !! x =
    if decide (x ∈ symbols)
    then match (get_yahoo_finance_data x (calls x) st).1 with
         | Some p => Some p
         | None => updates !! x
         end
    else updates !! x.
Proof.
  intros Hnd. revert updates st.
  induction Hnd as [|s rest Hs Hnd IH]; intros updates st.
  - cbn. by rewrite decide_False by apply not_elem_of_nil.
  - cbn [collect_prices].
    destruct (get_yahoo_finance_data s (calls s) st) as [price_data st'] eqn:E.
    rewrite IH.
    destruct (decide (x = s)) as [->|Hne].
    + rewrite decide_False by done.
      rewrite decide_True by left. rewrite E. cbn [fst].
      destruct price_data; [apply lookup_insert_eq | done].
    + assert (Hst : (get_yahoo_finance_data x (calls x) st').1
                    = (get_yahoo_finance_data x (calls x) st).1).
      { replace st' with (get_yahoo_finance_data s (calls s) st).2
          by (by rewrite E).
        apply get_result_own_key, get_other_key.
        intros Heq. apply cache_key_inj in Heq. congruence. }
      assert (Hup : match price_data with
                    | Some p => <[s:=p]> updates
                    | None => updates
                    end !! x = updates !! x).
      { destruct price_data; [by apply lookup_insert_ne | done]. }
      rewrite Hst, Hup.
      destruct (decide (x ∈ rest)) as [Hin|Hnin].
      * rewrite decide_True by (by right). done.
      * rewrite decide_False; [done|].
        intros Hc. apply elem_of_cons in Hc as [?|?]; done.
Qed.

(** X7. In a cycle of the updater a tracked symbol is in [price_updates]
    with exactly the quote its own call gives on the cache of the start of
    the cycle; a symbol whose fetch fails is absent and takes nothing away
    from the others. *)
Theorem price_updates_per_symbol (calls : string -> call) (st : state)
    (symbol : string) :
  symbol ∈ take 5 TRACKED_SYMBOLS ->
  (price_updates_of calls st).1 !! symbol
    = (get_yahoo_finance_data symbol (calls symbol) st).1.
Proof.
  intros Hin. unfold price_updates_of.
  rewrite collect_prices_lookup.
  - rewrite decide_True by done. by destruct (_.1).
  - apply (bool_decide_unpack _). vm_compute. exact I.
Qed.

Lemma price_updates_per_symbol_witness :
  (price_updates_of msft_down cold).1 !! "GOOGL"
    = (get_yahoo_finance_data "GOOGL" (msft_down "GOOGL") cold).1 /\
  (price_updates_of msft_down cold).1 !! "MSFT" = None /\
  is_Some ((price_updates_of msft_down cold).1 !! "GOOGL").
Proof.
  assert (Hin : forall s, bool_decide (s ∈ take 5 TRACKED_SYMBOLS) = true ->
                          s ∈ take 5 TRACKED_SYMBOLS).
  { intros s. apply bool_decide_eq_true_1. }
  split; [apply (price_updates_per_symbol msft_down cold "GOOGL"), Hin;
          vm_compute; reflexivity|].
  split.
  - rewrite (price_updates_per_symbol msft_down cold "MSFT")
      by (apply Hin; vm_compute; reflexivity).
    vm_compute. reflexivity.
  - rewrite (price_updates_per_symbol msft_down cold "GOOGL")
      by (apply Hin; vm_compute; reflexivity).
    vm_compute. by eexists.
Defined.

Lemma sum_cons (x : Q) (l : list Q) : Py.sum (x :: l) == x + Py.sum l.
Proof.
  unfold Py.sum. cbn [fold_left].
  assert (H : forall l a b, fold_left Qplus l (a + b) == a + fold_left Qplus l b).
  { clear. induction l as [|y l IH]; intros a b; cbn [fold_left]; [lra|].
    rewrite <- IH. assert (Hq : a + b + y == a + (b + y)) by lra.
    clear IH. revert Hq. generalize (a + b + y) (a + (b + y)).
    induction l as [|z l IHl]; intros u v Huv; cbn [fold_left]; [done|].
    apply IHl. lra. }
  rewrite <- (H l x 0). assert (Hq : 0 + x == x + 0) by lra.
  revert Hq. generalize (0 + x) (x + 0). clear.
  induction l as [|z l IHl]; intros u v Huv; cbn [fold_left]; [done|].
  apply IHl. lra.
Qed.





End UpdaterMore.

(** ** The decision engines, further *)

Section DecisionMore.
Local Open Scope Q_scope.

(** X9. A signal of [generate_ai_signal_with_analysis] always names at least
    one factor, so its reasoning is never the default text; between one and
    five votes are cast; and when one side has more votes the action is that
    side's, with a confidence between 0.7 and 0.95. *)
Theorem enhanced_signal_shape (symbol : string)
    (p : EnhancedBackend.MarketPrice.t)
    (ti : EnhancedBackend.TechnicalIndicators.t) (draw : nat) (now : Q) :
  let t := EnhancedBackend.score p ti in
  let s := EnhancedBackend.generate_ai_signal_with_analysis
             symbol p ti draw now in
  EnhancedBackend.reasoning_factors t <> [] /\
  (1 <= EnhancedBackend.buy_score t + EnhancedBackend.sell_score t <= 5)%Z /\
  ((EnhancedBackend.sell_score t < EnhancedBackend.buy_score t)%Z ->
   EnhancedBackend.TradeSignal.action s = "buy" /\
   0.7 <= EnhancedBackend.TradeSignal.confidence s <= 0.95 /\
   EnhancedBackend.TradeSignal.reasoning s
     = Py.join "; " (EnhancedBackend.reasoning_factors t)) /\
  ((EnhancedBackend.buy_score t < EnhancedBackend.sell_score t)%Z ->
   EnhancedBackend.TradeSignal.action s = "sell" /\
   0.7 <= EnhancedBackend.TradeSignal.confidence s <= 0.95 /\
   EnhancedBackend.TradeSignal.reasoning s
     = Py.join "; " (EnhancedBackend.reasoning_factors t)).
Proof.
  intros t s.
  assert (Hfact : EnhancedBackend.reasoning_factors t <> [] /\
     (1 <= EnhancedBackend.buy_score t + EnhancedBackend.sell_score t <= 5)%Z /\
     (0 <= EnhancedBackend.buy_score t)%Z /\
     (0 <= EnhancedBackend.sell_score t)%Z).
  { subst t. unfold EnhancedBackend.score,
      EnhancedBackend.moving_average_analysis,
      EnhancedBackend.price_momentum, EnhancedBackend.macd_analysis,
      EnhancedBackend.rsi_analysis.
    repeat case_match; cbn; (split; [discriminate | lia]). }
  destruct Hfact as (Hne & Hsum & Hb & Hs).
  assert (Hwin : forall n : Z, (1 <= n)%Z ->
            0.7 <= Py.min 0.95 (0.6 + inject_Z n * 0.1) <= 0.95).
  { intros n Hn.
    assert (1 <= inject_Z n) by (change 1 with (inject_Z 1); by rewrite <- Zle_Qle).
    unfold Py.min. destruct (Qltb _ _) eqn:E.
    - apply Qltb_lt in E. lra.
    - lra. }
  assert (Htext : EnhancedBackend.reasoning_text
                    (EnhancedBackend.reasoning_factors t)
                  = Py.join "; " (EnhancedBackend.reasoning_factors t)).
  { unfold EnhancedBackend.reasoning_text.
    by destruct (EnhancedBackend.reasoning_factors t). }
  split; [done|]. split; [done|]. split.
  - intros Hlt. subst s.
    unfold EnhancedBackend.generate_ai_signal_with_analysis,
      EnhancedBackend.determine. fold t.
    apply Z.ltb_lt in Hlt. rewrite Hlt.
    cbn [EnhancedBackend.TradeSignal.action
         EnhancedBackend.TradeSignal.confidence
         EnhancedBackend.TradeSignal.reasoning].
    apply Z.ltb_lt in Hlt.
    split; [done|]. split; [apply Hwin; lia | done].
  - intros Hlt. subst s.
    unfold EnhancedBackend.generate_ai_signal_with_analysis,
      EnhancedBackend.determine. fold t.
    replace (EnhancedBackend.sell_score t <? EnhancedBackend.buy_score t)%Z
      with false by (symmetry; apply Z.ltb_ge; lia).
    apply Z.ltb_lt in Hlt. rewrite Hlt.
    cbn [EnhancedBackend.TradeSignal.action
         EnhancedBackend.TradeSignal.confidence
         EnhancedBackend.TradeSignal.reasoning].
    apply Z.ltb_lt in Hlt.
    split; [done|]. split; [apply Hwin; lia | done].
Qed.


Lemma calculate_confidence_eq (a : TradingAI.analysis_t) :
  let base := Py.min (Py.sum (TradingAI.confidence_factors a)) 1.0 in
  0 <= base <= 1 /\
  TradingAI._calculate_confidence a
    = Py.round (TradingAI.risk_adjust
                  (default 20 (TradingAI.volatility a)) base) 3 /\
  0 <= TradingAI._calculate_confidence a <= 1.
Proof.
  intros base.
  assert (Hbase : 0 <= base <= 1).
  { pose proof (sum_nonneg _ (confidence_factors_nonneg a)) as Hsum.
    destruct (min_bounds (Py.sum (TradingAI.confidence_factors a)) 1.0 0)
      as [Hlo Hhi]; [done | lra |].
    fold base in Hlo, Hhi. lra. }
  pose proof (risk_adjust_bounds (default 20 (TradingAI.volatility a))
                base Hbase) as Hadj.
  assert (Heq : TradingAI._calculate_confidence a
                = Py.round (TradingAI.risk_adjust
                              (default 20 (TradingAI.volatility a)) base) 3).
  { unfold TradingAI._calculate_confidence. fold base.
    by rewrite clamp_unit_id by exact Hadj. }
  split; [exact Hbase|]. split; [exact Heq|].
  rewrite Heq. by apply round_unit_interval.
Qed.



End DecisionMore.

Section RiskMore.
Local Open Scope Q_scope.

(** The three outcomes of [_make_decision]. *)
Lemma make_decision_cases (settings : Config.Settings)
    (a : TradingAI.analysis_t) (confidence : Q) (d : TradingAI.decision_t) :
  TradingAI._make_decision settings a confidence = Ok d ->
  ((TradingAI.action d = "buy" \/ TradingAI.action d = "sell") /\
   0.5 <= confidence /\
   TradingAI.risk_level d
     = if Qltb 0.8 confidence then "low" else "medium") \/
  (TradingAI.action d = "hold" /\ TradingAI.risk_level d = "low" /\
   TradingAI.quantity d = 0%Z).
Proof.
  unfold TradingAI._make_decision.
  destruct (TradingAI.signals a) as [t|e]; [|done].
  cbn [mbind result_bind bind].
  destruct ((TradingAI.sell_signals t <? TradingAI.buy_signals t)%Z
            && Qle_bool 0.5 confidence) eqn:E1.
  { apply andb_true_iff in E1 as [_ E1]. apply Qle_bool_iff in E1.
    cbn [bool_decide decide_rel orb].
    destruct (Py.div _ _) as [q|e]; cbn [mbind result_bind bind]; [|done].
    intros [= <-]. left. cbn. split; [by left | done]. }
  destruct ((TradingAI.buy_signals t <? TradingAI.sell_signals t)%Z
            && Qle_bool 0.5 confidence) eqn:E2.
  { apply andb_true_iff in E2 as [_ E2]. apply Qle_bool_iff in E2.
    replace (bool_decide ("sell" = "buy") || bool_decide ("sell" = "sell"))
      with true by reflexivity.
    destruct (Py.div _ _) as [q|e]; cbn [mbind result_bind bind]; [|done].
    intros [= <-]. left. cbn. split; [by right | done]. }
  replace (bool_decide ("hold" = "buy") || bool_decide ("hold" = "sell"))
    with false by reflexivity.
  cbn [mbind result_bind bind]. intros [= <-]. right. done.
Qed.

(** X11. An annualized volatility above 40 caps the confidence at 0.7, one
    above 25 at 0.85.  So above 40 no buy or sell is rated low risk, and no
    decision is executed automatically by a threshold above 0.7, such as
    the default 0.75. *)
Theorem volatility_caps_confidence (settings : Config.Settings)
    (a : TradingAI.analysis_t) (v : Q) :
  TradingAI.volatility a = Some v ->
  (25 < v -> TradingAI._calculate_confidence a <= 0.85) /\
  (40 < v ->
   TradingAI._calculate_confidence a <= 0.7 /\
   forall d, TradingAI.make_trading_decision settings a = Ok d ->
     (TradingAI.decision d = "buy" \/ TradingAI.decision d = "sell" ->
      TradingAI.decision_risk_level d = "medium") /\
     (0.7 < Config.ai_confidence_threshold settings ->
      TradingAI.auto_execute d = false)).
Proof.
  intros Hv. destruct (calculate_confidence_eq a) as (Hbase & Heq & _).
  rewrite Hv in Heq. cbn [default from_option id] in Heq.
  set (base := Py.min (Py.sum (TradingAI.confidence_factors a)) 1.0) in *.
  assert (H85 : 25 < v -> TradingAI._calculate_confidence a <= 0.85).
  { intros H25. rewrite Heq. apply (round_le _ _ 3 850); [reflexivity|].
    unfold TradingAI.risk_adjust. apply Qltb_lt in H25. rewrite H25.
    destruct (Qltb 40 v); lra. }
  assert (H70 : 40 < v -> TradingAI._calculate_confidence a <= 0.7).
  { intros H40. rewrite Heq. apply (round_le _ _ 3 700); [reflexivity|].
    unfold TradingAI.risk_adjust. apply Qltb_lt in H40. rewrite H40. lra. }
  split; [exact H85|]. intros H40. split; [by apply H70|].
  specialize (H70 H40).
  intros d Hd. unfold TradingAI.make_trading_decision in Hd.
  destruct (TradingAI._make_decision settings a _) as [dec|e] eqn:Hdec;
    cbn [mbind result_bind bind] in Hd; [|done].
  injection Hd as <-.
  cbn [TradingAI.decision TradingAI.decision_risk_level TradingAI.auto_execute].
  split.
  - intros Hact.
    destruct (make_decision_cases _ _ _ _ Hdec)
      as [(_ & _ & ->)|(Hhold & _)].
    + by rewrite (proj2 (Qltb_ge _ _)) by lra.
    + rewrite Hhold in Hact. destruct Hact; discriminate.
  - intros Hth.
    replace (Qle_bool (Config.ai_confidence_threshold settings)
               (TradingAI._calculate_confidence a)) with false; [done|].
    symmetry. apply not_true_iff_false. rewrite Qle_bool_iff. lra.
Qed.

Lemma volatility_caps_confidence_witness :
  TradingAI._calculate_confidence TradingAI.volatile_oversold <= 0.7.
Proof.
  apply (volatility_caps_confidence Config.defaults
           TradingAI.volatile_oversold 45); reflexivity.
Defined.

(** X12. The risk rating and the confidence scaling read the same
    volatility, one before and one after rounding to two decimals, and agree:
    a confidence scaled by 0.7 goes with the rating Very High, a scaled one
    with High or Very High, and under the ratings Low and Medium the
    confidence is not scaled. *)
Theorem risk_rating_matches_scaling (annualized base : Q) :
  let r := AnalysisService.risk_of annualized in
  (40 < AnalysisService.volatility r ->
   AnalysisService.risk_rating r = "Very High") /\
  (25 < AnalysisService.volatility r ->
   AnalysisService.risk_rating r = "High" \/
   AnalysisService.risk_rating r = "Very High") /\
  (AnalysisService.risk_rating r = "Low" \/
   AnalysisService.risk_rating r = "Medium" ->
   TradingAI.risk_adjust (AnalysisService.volatility r) base = base).
Proof.
  cbn [AnalysisService.risk_of AnalysisService.volatility
       AnalysisService.risk_rating].
  assert (H40 : 40 < Py.round annualized 2 -> 40 < annualized).
  { intros H. apply Qnot_le_lt. intros Hle.
    apply (round_le _ 40 2 4000) in Hle; [lra | reflexivity]. }
  assert (H25 : 25 < Py.round annualized 2 -> 25 < annualized).
  { intros H. apply Qnot_le_lt. intros Hle.
    apply (round_le _ 25 2 2500) in Hle; [lra | reflexivity]. }
  unfold AnalysisService._get_risk_rating.
  split_and!.
  - intros H. specialize (H40 H).
    rewrite !(proj2 (Qltb_ge _ _)) by lra. done.
  - intros H. specialize (H25 H).
    rewrite !(proj2 (Qltb_ge annualized 15)), !(proj2 (Qltb_ge annualized 25))
      by lra.
    destruct (Qltb annualized 40); [by left | by right].
  - intros Hrating.
    assert (Hlt : annualized < 25).
    { destruct (Qltb annualized 15) eqn:E1.
      - apply Qltb_lt in E1. lra.
      - destruct (Qltb annualized 25) eqn:E2; [by apply Qltb_lt in E2|].
        destruct (Qltb annualized 40); destruct Hrating; discriminate. }
    assert (Hr : Py.round annualized 2 <= 25).
    { apply (round_le _ 25 2 2500); [reflexivity | lra]. }
    unfold TradingAI.risk_adjust.
    rewrite !(proj2 (Qltb_ge _ _)) by lra. done.
Qed.

Lemma disjoint_filters_length (l : list Q) :
  (length (filter (fun s => Qltb 0.1 s = true) l)
   + length (filter (fun s => Qltb s (-0.1) = true) l) <= length l)%nat.
Proof.
  induction l as [|x l IH]; [done|].
  rewrite !filter_cons.
  destruct (decide (Qltb 0.1 x = true)) as [H1|H1];
  destruct (decide (Qltb x (-0.1) = true)) as [H2|H2]; cbn [length]; try lia.
  apply Qltb_lt in H1, H2. lra.
Qed.

(** X13. In the report on the news the positive and the negative articles
    together are at most all articles; and a score that counts as a
    confidence factor (beyond 0.2 either way) always comes with the label
    of its sign, so the news that raises the confidence also casts its vote,
    for buy when positive and for sell when negative. *)
Theorem news_report_consistent (news_data : option (list (option Q)))
    (t : TradingAI.tally) :
  let r := NewsSentiment._analyze_news_sentiment news_data in
  (forall p n, NewsSentiment.positive_articles r = Some p ->
               NewsSentiment.negative_articles r = Some n ->
               (p + n <= NewsSentiment.article_count r)%nat) /\
  (Qltb 0.2 (Py.abs (NewsSentiment.score r)) = true ->
   (0 < NewsSentiment.score r /\
    TradingAI.news_signals (NewsSentiment.read r) t
      = TradingAI.buy 1 "Positive news sentiment" t) \/
   (NewsSentiment.score r < 0 /\
    TradingAI.news_signals (NewsSentiment.read r) t
      = TradingAI.sell 1 "Negative news sentiment" t)).
Proof.
  intros r. subst r. unfold NewsSentiment._analyze_news_sentiment.
  destruct news_data as [[|article articles]|].
  - split; [done|]. intros H. apply Qltb_lt in H. vm_compute in H. done.
  - set (sentiments := default 0 <$> article :: articles).
    set (avg := Py.sum sentiments / inject_Z (Z.of_nat (length sentiments))).
    cbn [NewsSentiment.positive_articles NewsSentiment.negative_articles
         NewsSentiment.article_count NewsSentiment.score
         NewsSentiment.overall NewsSentiment.read].
    split.
    + intros p n [= <-] [= <-].
      pose proof (disjoint_filters_length sentiments) as Hlen.
      unfold sentiments in Hlen at 3. rewrite length_fmap in Hlen. exact Hlen.
    + intros H. apply Qltb_lt in H. unfold Py.abs in H.
      unfold TradingAI.news_signals. cbn [TradingAI.overall].
      destruct (Qlt_le_dec 0 (Py.round avg 3)) as [Hpos|Hneg].
      * left. split; [done|].
        rewrite Qabs_pos in H by lra.
        assert (Havg : 0.2 < avg).
        { apply Qnot_le_lt. intros Hle.
          apply (round_le _ 0.2 3 200) in Hle; [lra | reflexivity]. }
        replace (Qltb 0.1 avg) with true by (symmetry; apply Qltb_lt; lra).
        done.
      * right. rewrite Qabs_neg in H by done.
        assert (Havg : avg < -0.2).
        { apply Qnot_le_lt. intros Hle.
          apply (round_ge _ (-0.2) 3 (-200)) in Hle; [lra | reflexivity]. }
        split; [lra|].
        replace (Qltb 0.1 avg) with false by (symmetry; apply Qltb_ge; lra).
        replace (Qltb avg (-0.1)) with true by (symmetry; apply Qltb_lt; lra).
        done.
  - split; [done|]. intros H. apply Qltb_lt in H. vm_compute in H. done.
Qed.

End RiskMore.

(** ** The trading service: trades and the portfolio table *)

Section PortfolioMore.
Import TradingService.
Local Open Scope Q_scope.





(** X16. The update touches the row of its own symbol only; selling a symbol
    that is not held, and any action other than buy and sell, change
    nothing. *)
Theorem update_portfolio_frame (symbol action : string) (quantity : Z)
    (price : Q) (table table' : gmap string Portfolio.t) :
  _update_portfolio symbol action quantity price table = Ok table' ->
  (forall other, other <> symbol -> table' !! other = table !! other) /\
  (action <> "buy" -> table !! symbol = None \/ action <> "sell" ->
   table' = table).
Proof.
  unfold _update_portfolio. intros Hrun. split.
  - intros other Hother. revert Hrun.
    destruct (table !! symbol) as [row|].
    + destruct (decide (action = "buy")).
      * destruct (Py.div _ _); run_bind; [|done]. intros [= <-].
        by rewrite lookup_insert_ne.
      * destruct (decide (action = "sell")); [|by intros [= <-]].
        destruct (_ <=? _)%Z; intros [= <-].
        -- by rewrite lookup_delete_ne.
        -- by rewrite lookup_insert_ne.
    + destruct (decide (action = "buy")); intros [= <-]; [|done].
      by rewrite lookup_insert_ne.
  - intros Hbuy Hsell. revert Hrun.
    destruct (table !! symbol) as [row|].
    + destruct (decide (action = "buy")); [done|].
      destruct (decide (action = "sell")); [|by intros [= <-]].
      destruct Hsell; done.
    + destruct (decide (action = "buy")); [done|]. by intros [= <-].
Qed.

Lemma update_portfolio_frame_witness :
  _update_portfolio "MSFT" "sell" 5 300 ten_aapl = Ok ten_aapl.
Proof.
  destruct (_update_portfolio "MSFT" "sell" 5 300 ten_aapl) as [table'|e] eqn:E;
    [|discriminate E].
  destruct (update_portfolio_frame _ _ _ _ _ _ E) as [_ H].
  rewrite H; [reflexivity | discriminate | by left].
Defined.

(** X17. Buying a symbol that is not held and then selling the same quantity
    gives the table back, whatever the two prices. *)
Theorem buy_sell_round_trip (symbol : string) (quantity : Z) (bought sold : Q)
    (table : gmap string Portfolio.t) :
  table !! symbol = None ->
  _update_portfolio symbol "buy" quantity bought table
    ≫= _update_portfolio symbol "sell" quantity sold
  = Ok table.
Proof.
  intros Hnone. unfold _update_portfolio at 2. rewrite Hnone.
  destruct (decide ("buy" = "buy")) as [_|]; [|done]. run_bind.
  unfold _update_portfolio. rewrite lookup_insert_eq.
  destruct (decide ("sell" = "buy")) as [|_]; [done|].
  destruct (decide ("sell" = "sell")) as [_|]; [|done].
  cbn [Portfolio.quantity]. rewrite Z.sub_diag. cbn [Z.leb Z.compare].
  f_equal. rewrite delete_insert_eq. by apply delete_id.
Qed.

Lemma buy_sell_round_trip_witness :
  _update_portfolio "MSFT" "buy" 3 330 ten_aapl
    ≫= _update_portfolio "MSFT" "sell" 3 340
  = Ok ten_aapl.
Proof. apply (buy_sell_round_trip "MSFT" 3 330 340 ten_aapl). reflexivity. Defined.

(** X18. A trade is all or nothing: when anything raises the session is as
    it was; otherwise exactly one trade is recorded, at the executed price
    and with a fee of 0.1 percent of the traded value, and the portfolio is
    the one the update gives at that price. *)
Theorem execute_trade_atomic (current_price : result Q)
    (symbol action : string) (quantity : Z) (order_type : string)
    (limit_price : option Q) (d : db) :
  match execute_trade current_price symbol action quantity order_type
          limit_price d with
  | (Raise _, d') => d' = d
  | (Ok r, d') =>
      _update_portfolio symbol action quantity (executed_price r) (portfolio d)
        = Ok (portfolio d') /\
      charged_fees r = executed_price r * inject_Z quantity * 0.001 /\
      exists trade,
        trades d' = trades d ++ [trade] /\
        Trade.symbol trade = symbol /\ Trade.action trade = action /\
        Trade.quantity trade = quantity /\
        Trade.price trade = executed_price r /\
        Trade.fees trade = charged_fees r /\
        Trade.status trade = "executed"
  end.
Proof.
  unfold execute_trade. destruct current_price as [p|e]; run_bind; [|done].
  destruct (_update_portfolio _ _ _ _ _) as [table|e] eqn:Hup; run_bind;
    [|done].
  cbn [executed_price charged_fees portfolio trades].
  split; [exact Hup|]. split; [reflexivity|]. eexists. by split.
Qed.



(** X20. Closing a held position sells the whole held quantity at the
    current price and removes the row; closing it again raises, and leaves
    the session as it is. *)
Theorem close_position_removes (p : Q) (symbol : string) (d : db)
    (row : Portfolio.t) :
  portfolio d !! symbol = Some row ->
  exists r d',
    close_position (Ok p) symbol d = (Ok r, d') /\
    traded_action r = "sell" /\
    traded_quantity r = Portfolio.quantity row /\
    executed_price r = p /\
    portfolio d' = delete symbol (portfolio d) /\
    forall current_price,
      close_position current_price symbol d'
      = (Raise (Exception ("No position found for " +:+ symbol)), d').
Proof.
  intros Hrow. unfold close_position at 1. rewrite Hrow.
  unfold execute_trade. run_bind.
  replace (bool_decide ("market" = "limit") && Py.truthy None) with false
    by reflexivity.
  unfold _update_portfolio. rewrite Hrow.
  destruct (decide ("sell" = "buy")) as [|_]; [done|].
  destruct (decide ("sell" = "sell")) as [_|]; [|done].
  rewrite Z.sub_diag. cbn [Z.leb Z.compare]. run_bind.
  eexists _, _. split; [reflexivity|].
  cbn [traded_action traded_quantity executed_price portfolio].
  split_and!; try reflexivity.
  intros current_price. unfold close_position. cbn [portfolio].
  by rewrite lookup_delete_eq.
Qed.

Lemma close_position_removes_witness :
  exists r d',
    close_position (Ok 155) "AAPL" {| portfolio := ten_aapl; trades := [] |}
      = (Ok r, d') /\
    traded_quantity r = 10%Z /\ portfolio d' = delete "AAPL" ten_aapl.
Proof.
  destruct (close_position_removes 155 "AAPL"
              {| portfolio := ten_aapl; trades := [] |}
              {| Portfolio.quantity := 10; Portfolio.avg_price := 150 |})
    as (r & d' & Hrun & _ & Hq & _ & Hp & _); [reflexivity|].
  exists r, d'. split; [exact Hrun|]. split; [exact Hq | exact Hp].
Defined.

End PortfolioMore.

(** ** The trading service: positions and the summary *)

Section SummaryMore.
Import TradingService.
Local Open Scope Q_scope.

(** X21. The list of positions is all or nothing: it is returned exactly
    when the price of every row is available, and then it has one entry per
    row, in the order of the rows. *)
Theorem get_positions_all_or_nothing (price_of : string -> result Q)
    (rows : list (string * Portfolio.t)) :
  (exists positions,
     get_positions price_of rows = Ok positions /\
     symbol <$> positions = rows.*1) <->
  Forall (fun r => exists p, price_of r.1 = Ok p) rows.
Proof.
  induction rows as [|[s row] rest IH]; cbn [get_positions].
  - split; [constructor | by exists []].
  - split.
    + intros (positions & Hrun & _).
      destruct (price_of s) as [p|e] eqn:Hp; cbn [mbind result_bind bind] in Hrun; [|done].
      destruct (get_positions price_of rest) as [ps|e] eqn:Hps;
        cbn [mbind result_bind bind] in Hrun; [|done].
      constructor; [by exists p|]. apply IH.
      assert (Hall : forall l, get_positions price_of rest = Ok l ->
                               symbol <$> l = rest.*1).
      { clear. induction rest as [|[s row] rest IH]; cbn [get_positions];
          intros l.
        - by intros [= <-].
        - destruct (price_of s); cbn [mbind result_bind bind]; [|done].
          destruct (get_positions price_of rest);
            cbn [mbind result_bind bind]; [|done].
          intros [= <-]. cbn. f_equal. by apply IH. }
      exists ps. split; [done|]. by apply Hall.
    + intros Hall. apply Forall_cons in Hall as [[p Hp] Hrest].
      apply IH in Hrest as (ps & Hps & Hsym). cbn [fst] in Hp.
      rewrite Hp, Hps. run_bind. eexists. split; [reflexivity|].
      cbn. by f_equal.
Qed.

(** X22. For a row with a positive quantity priced at or above its average
    price, the market value is at least the cost basis and neither the
    unrealized profit nor its percentage is negative. *)
Theorem position_gain_signs (s : string) (row : Portfolio.t) (current : Q) :
  (0 < Portfolio.quantity row)%Z ->
  Portfolio.avg_price row <= current ->
  let pos := position_of s row current in
  cost_basis pos <= market_value pos /\
  0 <= unrealized_pnl pos /\
  0 <= unrealized_pnl_percent pos.
Proof.
  intros Hq Hle.
  assert (Hqq : 0 < inject_Z (Portfolio.quantity row))
    by (change 0 with (inject_Z 0); by rewrite <- Zlt_Qlt).
  cbn zeta. unfold position_of.
  cbn [cost_basis market_value unrealized_pnl unrealized_pnl_percent].
  set (q := inject_Z (Portfolio.quantity row)) in *.
  split_and!.
  - apply round_mono. nra.
  - apply (round_ge _ _ 2 0); [reflexivity | nra].
  - destruct (Qltb 0 (q * Portfolio.avg_price row)) eqn:E; [|lra].
    apply Qltb_lt in E. apply (round_ge _ _ 2 0); [reflexivity|].
    apply Qmult_le_0_compat; [|lra].
    apply Qle_shift_div_l; [exact E | nra].
Qed.

Lemma position_gain_signs_witness :
  0 <= unrealized_pnl
         (position_of "AAPL"
            {| Portfolio.quantity := 10; Portfolio.avg_price := 150 |} 155).
Proof.
  apply (position_gain_signs "AAPL"
           {| Portfolio.quantity := 10; Portfolio.avg_price := 150 |} 155);
    [reflexivity | cbn; lra].
Defined.

Lemma round_zero (n : nat) : Py.round 0 n == 0.
Proof.
  apply Qle_antisym.
  - apply (round_le _ _ n 0); [reflexivity | lra].
  - apply (round_ge _ _ n 0); [reflexivity | lra].
Qed.

(** X23. The summary never divides by zero: it is returned whenever the
    list of positions is.  Its win rate lies between 0 and 100, and the
    winning trades are among the trades. *)
Theorem summary_win_rate_bounds (price_of : string -> result Q)
    (rows : list (string * Portfolio.t)) (all_trades : list Trade.t)
    (positions : list position) :
  get_positions price_of rows = Ok positions ->
  exists s,
    get_portfolio_summary price_of rows all_trades = Ok s /\
    positions_count s = length positions /\
    total_trades s = length all_trades /\
    (winning_trades s <= total_trades s)%nat /\
    0 <= win_rate s <= 100.
Proof.
  intros Hps. unfold get_portfolio_summary. rewrite Hps. run_bind.
  eexists. split; [reflexivity|].
  cbn [positions_count total_trades winning_trades win_rate].
  set (w := length (filter _ all_trades)).
  assert (Hw : (w <= length all_trades)%nat) by apply length_filter.
  split_and!; try done.
  - apply (round_ge _ _ 2 0); [reflexivity|].
    case_bool_decide as Ht; [|lra].
    apply Qmult_le_0_compat; [|lra]. apply Qle_shift_div_l.
    + change 0 with (inject_Z 0). rewrite <- Zlt_Qlt. lia.
    + rewrite Qmult_0_l. change 0 with (inject_Z 0). rewrite <- Zle_Qle. lia.
  - apply (round_le _ _ 2 10000); [reflexivity|].
    case_bool_decide as Ht; [|lra].
    assert (Hr : inject_Z (Z.of_nat w) / inject_Z (Z.of_nat (length all_trades))
                 <= 1).
    { apply Qle_shift_div_r.
      - change 0 with (inject_Z 0). rewrite <- Zlt_Qlt. lia.
      - rewrite Qmult_1_l. rewrite <- Zle_Qle. lia. }
    lra.
Qed.

Lemma summary_win_rate_bounds_witness :
  exists s,
    get_portfolio_summary (fun _ => Ok 155) (map_to_list ten_aapl) [] = Ok s /\
    0 <= win_rate s <= 100.
Proof.
  destruct (summary_win_rate_bounds (fun _ => Ok 155) (map_to_list ten_aapl) []
              [position_of "AAPL"
                 {| Portfolio.quantity := 10; Portfolio.avg_price := 150 |} 155])
    as (s & Hrun & _ & _ & _ & Hrate);
    [unfold ten_aapl; by rewrite map_to_list_singleton|].
  exists s. split; [exact Hrun | exact Hrate].
Defined.

(** X24. The service records every trade with a profit of zero and never
    sets another one: over trades it recorded, the realized profit, the
    number of winning trades and the win rate of the summary are zero. *)
Theorem recorded_trades_win_nothing (current_price : result Q)
    (symbol action : string) (quantity : Z) (order_type : string)
    (limit_price : option Q) (d : db) :
  Forall (fun t => Trade.pnl t = Some 0.0) (trades d) ->
  let d' := (execute_trade current_price symbol action quantity order_type
               limit_price d).2 in
  Forall (fun t => Trade.pnl t = Some 0.0) (trades d') /\
  forall price_of rows s,
    get_portfolio_summary price_of rows (trades d') = Ok s ->
    realized_pnl s == 0 /\ winning_trades s = 0%nat /\ win_rate s == 0.
Proof.
  intros Hall. cbn zeta.
  assert (Hall' : Forall (fun t => Trade.pnl t = Some 0.0)
                    (trades (execute_trade current_price symbol action quantity
                               order_type limit_price d).2)).
  { unfold execute_trade. destruct current_price as [p|e]; run_bind; [|done].
    destruct (_update_portfolio _ _ _ _ _); run_bind; [|done].
    cbn [snd trades]. apply Forall_app. split; [exact Hall|].
    by constructor. }
  split; [exact Hall'|]. clear Hall. revert Hall'.
  generalize (trades (execute_trade current_price symbol action quantity
                        order_type limit_price d).2) as l.
  intros l Hl price_of rows s. unfold get_portfolio_summary.
  destruct (get_positions price_of rows) as [ps|e]; run_bind; [|done].
  intros [= <-]. cbn [realized_pnl winning_trades win_rate].
  assert (Hwin : filter (fun t => winning t = true) l = []).
  { clear -Hl. induction Hl as [|t l Ht _ IH]; [done|].
    rewrite filter_cons_False; [exact IH|].
    unfold winning. rewrite Ht. done. }
  assert (Hsum : Py.sum (omap Trade.pnl l) == 0).
  { clear -Hl. induction Hl as [|t l Ht _ IH]; [reflexivity|].
    cbn [omap list_omap]. rewrite Ht. rewrite sum_cons, IH. reflexivity. }
  rewrite Hwin. cbn [length]. split_and!.
  - rewrite (round_Qeq _ 0 2 Hsum). apply round_zero.
  - reflexivity.
  - rewrite (round_Qeq _ 0 2); [apply round_zero|].
    case_bool_decide; [|reflexivity].
    change (inject_Z (Z.of_nat 0)) with 0. unfold Qdiv. lra.
Qed.

Lemma recorded_trades_win_nothing_witness :
  exists s,
    get_portfolio_summary (fun _ => Ok 155) []
      (trades (execute_trade (Ok 155) "AAPL" "sell" 10 "market" None
                 {| portfolio := ten_aapl; trades := [] |}).2) = Ok s /\
    realized_pnl s == 0 /\ winning_trades s = 0%nat /\ win_rate s == 0.
Proof.
  destruct (recorded_trades_win_nothing (Ok 155) "AAPL" "sell" 10 "market" None
              {| portfolio := ten_aapl; trades := [] |}) as [_ H];
    [constructor|].
  destruct (get_portfolio_summary _ _ _) as [s|e] eqn:E.
  - exists s. split; [reflexivity|]. exact (H _ _ _ E).
  - unfold get_portfolio_summary in E. cbn [get_positions] in E.
    cbn [mbind result_bind bind] in E. discriminate E.
Defined.

End SummaryMore.

(** ** Quotes: the current price and the simulated price *)

Section QuoteMore.
Local Open Scope Q_scope.

(** The change in percent never divides by zero, and is 0 when the previous
    close is absent or zero. *)
Lemma percent_change_ok (current : Q) (previous : option Q) :
  let prev := default current previous in
  exists pct,
    (if Py.truthy (Some prev)
     then Py.div (current - prev) prev ≫= (fun ratio => Ok (ratio * 100))
     else Ok 0) = Ok pct /\
    (Py.truthy previous = false -> pct == 0).
Proof.
  cbn zeta. set (prev := default current previous).
  cbn [Py.truthy]. destruct (Qeq_bool prev 0) eqn:E; cbn [negb].
  - by exists 0.
  - apply Qeq_bool_false in E. rewrite (div_ok _ _ E). run_bind.
    eexists. split; [reflexivity|]. intros Hfalse.
    destruct previous as [c|]; cbn [Py.truthy] in Hfalse.
    + apply negb_false_iff, Qeq_bool_iff in Hfalse.
      subst prev. cbn [default from_option id] in E. done.
    + subst prev. cbn [default from_option id] in *. field. exact E.
Qed.

(** X25. When the history has a row the current price is always returned,
    from the last row: a previous close that is absent or zero never leads
    to a division by zero but to a change of 0 percent, and an absent one to
    a change of 0. *)
Theorem current_price_without_previous_close (symbol : string)
    (t : CurrentPrice.ticker) (previous : option Q)
    (rows : list CurrentPrice.candle) (has_volume : bool)
    (row : CurrentPrice.candle) :
  CurrentPrice.info t = Ok previous ->
  CurrentPrice.history t = Ok (rows, has_volume) ->
  last rows = Some row ->
  exists pd,
    CurrentPrice.get_current_price symbol t = Ok pd /\
    CurrentPrice.price pd = Py.round (CurrentPrice.Close row) 2 /\
    CurrentPrice.timestamp pd = CurrentPrice.index row /\
    (Py.truthy previous = false -> CurrentPrice.change_percent pd == 0) /\
    (previous = None -> CurrentPrice.change pd == 0).
Proof.
  intros Hinfo Hhist Hlast. unfold CurrentPrice.get_current_price.
  rewrite Hinfo, Hhist. run_bind. rewrite Hlast.
  set (current := CurrentPrice.Close row).
  set (prev := default current previous).
  pose proof (percent_change_ok current previous) as Hpct.
  cbn zeta in Hpct. fold prev in Hpct.
  destruct Hpct as (pct & -> & Hzero). run_bind.
  eexists. split; [reflexivity|].
  cbn [CurrentPrice.price CurrentPrice.timestamp CurrentPrice.change_percent
       CurrentPrice.change].
  split_and!; try reflexivity.
  - intros Hfalse. rewrite (round_Qeq _ 0 2 (Hzero Hfalse)).
    apply Qle_antisym.
    + apply (round_le _ _ 2 0); [reflexivity | lra].
    + apply (round_ge _ _ 2 0); [reflexivity | lra].
  - intros ->. subst prev. cbn [default from_option id].
    rewrite (round_Qeq _ 0 2) by ring.
    apply Qle_antisym.
    + apply (round_le _ _ 2 0); [reflexivity | lra].
    + apply (round_ge _ _ 2 0); [reflexivity | lra].
Qed.

Lemma current_price_without_previous_close_witness :
  exists pd,
    CurrentPrice.get_current_price "AAPL" CurrentPrice.zero_previous_close
      = Ok pd /\
    CurrentPrice.change_percent pd == 0.
Proof.
  destruct (current_price_without_previous_close "AAPL"
              CurrentPrice.zero_previous_close (Some 0)
              [CurrentPrice.aapl_day] true CurrentPrice.aapl_day)
    as (pd & Hrun & _ & _ & Hpct & _); [reflexivity..|].
  exists pd. split; [exact Hrun|]. apply Hpct. reflexivity.
Defined.

(** X26. An empty history, and only that once [info] and the history were
    read, raises the error that no data was found for the symbol. *)
Theorem current_price_no_data (symbol : string) (t : CurrentPrice.ticker)
    (previous : option Q) (rows : list CurrentPrice.candle)
    (has_volume : bool) :
  CurrentPrice.info t = Ok previous ->
  CurrentPrice.history t = Ok (rows, has_volume) ->
  (rows = [] <->
   CurrentPrice.get_current_price symbol t
   = Raise (Exception ("No data found for symbol " +:+ symbol))) /\
  (rows = [] <->
   forall pd, CurrentPrice.get_current_price symbol t <> Ok pd).
Proof.
  intros Hinfo Hhist.
  destruct (last rows) as [row|] eqn:Hlast.
  - assert (Hne : rows <> []) by (intros ->; discriminate Hlast).
    assert (exists pd, CurrentPrice.get_current_price symbol t = Ok pd)
      as [pd Hrun].
    { unfold CurrentPrice.get_current_price.
      rewrite Hinfo, Hhist. run_bind. rewrite Hlast.
      destruct (percent_change_ok (CurrentPrice.Close row) previous)
        as (pct & -> & _).
      run_bind. by eexists. }
    split; split; try done.
    + rewrite Hrun. discriminate.
    + intros Hno. by destruct (Hno pd).
  - apply last_None in Hlast. subst rows.
    assert (Hrun : CurrentPrice.get_current_price symbol t
                   = Raise (Exception ("No data found for symbol " +:+ symbol))).
    { unfold CurrentPrice.get_current_price. rewrite Hinfo, Hhist.
      reflexivity. }
    split; split; try done.
    intros _ pd. rewrite Hrun. discriminate.
Qed.

Lemma current_price_no_data_witness :
  CurrentPrice.get_current_price "AAPL"
    {| CurrentPrice.info := Ok None; CurrentPrice.history := Ok ([], false) |}
  = Raise (Exception "No data found for symbol AAPL").
Proof.
  apply (current_price_no_data "AAPL"
           {| CurrentPrice.info := Ok None;
              CurrentPrice.history := Ok ([], false) |} None [] false);
    reflexivity.
Defined.



End QuoteMore.

(** ** The market analysis endpoint and the pivot levels *)

Section AnalysisMore.
Local Open Scope Q_scope.

Variable calculate_rsi : list Q -> result Q.
Variable calculate_macd : list Q -> result (Q * Q).
Variable rolling_mean_last : nat -> list Q -> result Q.

Lemma sentiment_score_bounds (p : RealtimeBackend.MarketPrice.t)
    (ti : RealtimeBackend.TechnicalIndicators.t) :
  (0 <= AiAnalysis.sentiment_score p ti <= 3)%Z.
Proof.
  unfold AiAnalysis.sentiment_score.
  destruct (Qltb 50 _), (Qltb 0 (RealtimeBackend.TechnicalIndicators.macd ti)),
    (Qltb 0 (RealtimeBackend.MarketPrice.change_percent p)); lia.
Qed.

(** Each symbol adds at most one entry and a sentiment between 0 and 1. *)
Lemma gather_bounds (symbols : list string)
    (readings : string -> AiAnalysis.reading)
    (market_data : list (string * AiAnalysis.entry)) (total bound : Q)
    (st : RealtimeBackend.state) :
  0 <= total <= bound ->
  let '(market_data', total', _) :=
    AiAnalysis.gather calculate_rsi calculate_macd rolling_mean_last
      symbols readings market_data total st in
  0 <= total' <= bound + inject_Z (Z.of_nat (length symbols)) /\
  (length market_data' <= length market_data + length symbols)%nat.
Proof.
  revert market_data total bound st.
  induction symbols as [|symbol rest IH]; intros market_data total bound st Ht.
  - cbn [AiAnalysis.gather length]. change (inject_Z (Z.of_nat 0)) with 0.
    split; [lra | lia].
  - cbn [AiAnalysis.gather length].
    destruct (RealtimeBackend.get_yahoo_finance_data _ _ _) as [[p|] st'].
    + set (ti := RealtimeBackend.get_technical_indicators _ _ _ _ _ _ _).
      pose proof (sentiment_score_bounds p ti) as [Hlo Hhi].
      rewrite Zle_Qle in Hlo, Hhi.
      change (inject_Z 0) with 0 in Hlo. change (inject_Z 3) with 3 in Hhi.
      set (s := inject_Z (AiAnalysis.sentiment_score p ti)) in *.
      match goal with
      | |- context [AiAnalysis.gather _ _ _ rest readings ?md ?t st'] =>
          specialize (IH md t (bound + 1) st'); set (md' := md) in *
      end.
      destruct (AiAnalysis.gather _ _ _ rest readings md' _ st')
        as [[md2 total2] st2].
      destruct IH as [Hb Hl].
      { split.
        - apply (Qle_trans _ (total + 0)); [lra|].
          apply Qplus_le_r. apply Qle_shift_div_l; lra.
        - apply Qplus_le_compat; [lra|]. apply Qle_shift_div_r; lra. }
      rewrite Nat2Z.inj_succ, <- Z.add_1_r, inject_Z_plus.
      change (inject_Z 1) with 1. split; [lra|].
      subst md'. rewrite length_app in Hl. cbn [length] in Hl. lia.
    + specialize (IH market_data total bound st' Ht).
      destruct (AiAnalysis.gather _ _ _ rest readings market_data total st')
        as [[md2 total2] st2].
      destruct IH as [Hb Hl].
      rewrite Nat2Z.inj_succ, <- Z.add_1_r, inject_Z_plus.
      change (inject_Z 1) with 1. split; [lra | lia].
Qed.

(** X28. The analysis of the market always has a score between 0 and 1, at
    most one entry per watched symbol and at least one recommendation, and
    its label agrees with its score: Bullish from 0.6 up, Bearish up to 0.4,
    Neutral in between. *)
Theorem ai_analysis_consistent (readings : string -> AiAnalysis.reading)
    (st : RealtimeBackend.state) :
  let a := (AiAnalysis.get_ai_analysis calculate_rsi calculate_macd
              rolling_mean_last readings st).1 in
  0 <= AiAnalysis.score a <= 1 /\
  (length (AiAnalysis.market_data a) <= 3)%nat /\
  AiAnalysis.recommendations a <> [] /\
  (AiAnalysis.market_sentiment a = "Bullish" -> 0.6 <= AiAnalysis.score a) /\
  (AiAnalysis.market_sentiment a = "Bearish" -> AiAnalysis.score a <= 0.4) /\
  (AiAnalysis.market_sentiment a = "Neutral" ->
   0.4 <= AiAnalysis.score a <= 0.6).
Proof.
  cbn zeta. unfold AiAnalysis.get_ai_analysis.
  pose proof (gather_bounds AiAnalysis.symbols readings [] 0 0 st) as Hg.
  destruct (AiAnalysis.gather _ _ _ AiAnalysis.symbols readings [] 0 st)
    as [[md total] st'].
  destruct Hg as [Ht Hl]; [lra|].
  change (inject_Z (Z.of_nat (length AiAnalysis.symbols))) with 3 in *.
  cbn [length AiAnalysis.symbols] in Hl.
  cbn [fst AiAnalysis.score AiAnalysis.market_data AiAnalysis.recommendations
       AiAnalysis.market_sentiment].
  set (avg := total / 3).
  assert (Havg : 0 <= avg <= 1).
  { subst avg. split; [apply Qle_shift_div_l | apply Qle_shift_div_r]; lra. }
  split_and!.
  - apply (round_ge _ _ 2 0); [reflexivity | lra].
  - apply (round_le _ _ 2 100); [reflexivity | lra].
  - lia.
  - by destruct (AiAnalysis.recommend md).
  - destruct (Qltb 0.6 avg) eqn:E1; [|by destruct (Qltb avg 0.4)].
    intros _. apply Qltb_lt in E1.
    apply (round_ge _ _ 2 60); [reflexivity | lra].
  - destruct (Qltb 0.6 avg) eqn:E1; [done|].
    destruct (Qltb avg 0.4) eqn:E2; [|done]. intros _. apply Qltb_lt in E2.
    apply (round_le _ _ 2 40); [reflexivity | lra].
  - destruct (Qltb 0.6 avg) eqn:E1; [done|].
    destruct (Qltb avg 0.4) eqn:E2; [done|]. intros _.
    apply Qltb_ge in E1, E2. split.
    + apply (round_ge _ _ 2 40); [reflexivity | lra].
    + apply (round_le _ _ 2 60); [reflexivity | lra].
Qed.

End AnalysisMore.

Section LevelsMore.
Import AnalysisService.
Local Open Scope Q_scope.






End LevelsMore.
